(** * blender_wrapper.py: the command router and the Blender dispatcher

    A shallow embedding of [packages/media/3d-models/blender/blender_wrapper.py].
    The module has two functions: [run_blender_script] (the dispatcher, which
    looks for a Blender executable, launches it and classifies what comes
    back) and [main] (the router, which validates the parsed command line,
    calls the dispatcher or answers with a placeholder, prints one JSON
    object and exits).

    Python values are modelled as follows.
    - [str] is [string]; text outside ASCII is carried as its UTF-8 bytes.
    - the result dictionaries are JSON objects: association lists in
      insertion order, without duplicate keys.
    - everything the operating system decides (which paths exist and
      whether the user may look, what the environment holds, how the child
      process behaves) is read from a [World] record, and so are the two
      settings of the interpreter that [json.loads] depends on.
    - [print] and [subprocess.run] leave events in a trace; [sys.exit] stops
      the computation with an exit code, and an exception that nothing
      catches stops it without one.

    Three things are taken as given.  [main] starts from the namespace that
    [argparse] built, so a command line that [argparse] itself refuses is
    not a run of this model.  [print(json.dumps(v))] is recorded as the
    object [v]; the text it is rendered to is not modelled.  A JSON number
    with a fraction or an exponent is kept as its literal, not as a
    floating-point value. *)

From Stdlib Require Import String Ascii List ZArith QArith Bool Lia.
From Stdlib Require Import DecimalString.
Import ListNotations.
Local Open Scope string_scope.
Local Open Scope Z_scope.
Set Warnings "-register-all".

(** ** Strings *)

(** [needle in hay] of Python, for [str]. *)
Fixpoint contains (needle hay : string) : bool :=
  if prefix needle hay then true
  else match hay with
       | EmptyString => false
       | String _ rest => contains needle rest
       end.

Definition startswith (pre s : string) : bool := prefix pre s.

(** The double quote, and a word between double quotes, for writing JSON
    text. *)
Definition dquote : string := String "034" EmptyString.
Definition quoted (s : string) : string := dquote ++ s ++ dquote.

(** ** JSON values and Python dictionaries *)

Module PyJson.

(** What [json.loads] can return.  A number written with a fraction or an
    exponent is a Python float; it is kept as the literal that denotes it. *)
Inductive json : Type :=
| JNull
| JBool (b : bool)
| JInt (z : Z)
| JFloat (literal : string)
| JString (s : string)
| JArray (items : list json)
| JObject (members : list (string * json)).

(** [d.get(k)] *)
Fixpoint assoc_get (k : string) (d : list (string * json)) : option json :=
  match d with
  | [] => None
  | (k', v) :: rest => if String.eqb k k' then Some v else assoc_get k rest
  end.

(** [d[k] = v]: an existing key keeps its place and takes the new value,
    a new key goes last. *)
Fixpoint assoc_set (k : string) (v : json) (d : list (string * json))
  : list (string * json) :=
  match d with
  | [] => [(k, v)]
  | (k', v') :: rest =>
      if String.eqb k k' then (k, v) :: rest else (k', v') :: assoc_set k v rest
  end.

Definition dict_get (k : string) (d : json) : option json :=
  match d with
  | JObject ms => assoc_get k ms
  | _ => None
  end.

Definition has_key (k : string) (d : json) : bool :=
  match dict_get k d with Some _ => true | None => false end.

(** Truth value of a Python object, as [if x] and [x if c else y] test it. *)
Definition truthy (v : json) : bool :=
  match v with
  | JNull => false
  | JBool b => b
  | JInt z => negb (z =? 0)
  | JFloat _ => true
  | JString s => negb (String.eqb s "")
  | JArray l => match l with [] => false | _ => true end
  | JObject l => match l with [] => false | _ => true end
  end.

(** [d.get(k)] used as a condition: a missing key gives [None], which is
    false. *)
Definition get_truthy (k : string) (d : json) : bool :=
  match dict_get k d with Some v => truthy v | None => false end.

(** *** [json.loads]

    The decoder follows the scanner of Python's [json] package in its
    default (strict) configuration: the only white space is space, tab, line
    feed and carriage return; a document is one value with nothing but white
    space around it; [NaN], [Infinity] and [-Infinity] are accepted.

    Two settings of the interpreter decide whether a text that the grammar
    accepts is decoded at all. *)
Record Limits : Type := {
  int_max_str_digits : nat;
    (* [sys.get_int_max_str_digits()]: the longest integer literal [int]
       converts, 0 for no limit *)
  recursion_budget : nat
    (* how many containers, one inside the other, the scanner can enter
       from where [json.loads] is called before the recursion limit is
       reached *)
}.

Inductive container : Type := InArray | InObject.

(** The exceptions of [json.loads] that are not [JSONDecodeError]. *)
Inductive exception : Type :=
| ValueError (limit digits : nat)
    (* an integer literal of [digits] digits, more than the [limit] *)
| RecursionError (at_ : container).
    (* one container too many *)

Definition decimal (n : nat) : string :=
  NilEmpty.string_of_uint (Nat.to_uint n).

(** [str(e)], as CPython words it. *)
Definition str (e : exception) : string :=
  match e with
  | ValueError limit digits =>
      "Exceeds the limit (" ++ decimal limit
        ++ " digits) for integer string conversion: value has "
        ++ decimal digits
        ++ " digits; use sys.set_int_max_str_digits() to increase the limit"
  | RecursionError InArray =>
      "maximum recursion depth exceeded while decoding a JSON array from a unicode string"
  | RecursionError InObject =>
      "maximum recursion depth exceeded while decoding a JSON object from a unicode string"
  end.

Definition is_ws (c : ascii) : bool :=
  match c with
  | " "%char | "009"%char | "010"%char | "013"%char => true
  | _ => false
  end.

Fixpoint skip_ws (s : string) : string :=
  match s with
  | String c r => if is_ws c then skip_ws r else s
  | EmptyString => s
  end.

Definition code (c : ascii) : N := N_of_ascii c.

Definition is_digit (c : ascii) : bool :=
  ((48 <=? code c) && (code c <=? 57))%N.

(** The longest run of decimal digits at the head of [s], and what follows. *)
Fixpoint take_digits (s : string) : string * string :=
  match s with
  | String c r =>
      if is_digit c then let (ds, rest) := take_digits r in (String c ds, rest)
      else (EmptyString, s)
  | EmptyString => (EmptyString, EmptyString)
  end.

Fixpoint digits_value (acc : Z) (ds : string) : Z :=
  match ds with
  | String c r => digits_value (10 * acc + (Z.of_N (code c) - 48)) r
  | EmptyString => acc
  end.

(** The number pattern of the scanner: an optional minus sign and an integer
    part (a lone 0, or digits that do not start with 0), then a fraction
    (a dot and digits) and an exponent (e or E, an optional sign, digits),
    each taken only when complete.  With neither, the literal is an [int],
    otherwise a [float]. *)
Definition scan_sign (s : string) : bool * string :=
  match s with
  | String c r => if Ascii.eqb c "-" then (true, r) else (false, s)
  | EmptyString => (false, s)
  end.

Definition scan_int (s : string) : option (string * string) :=
  match s with
  | String c r =>
      if is_digit c then
        if Ascii.eqb c "0" then Some ("0", r) else Some (take_digits s)
      else None
  | EmptyString => None
  end.

Definition scan_frac (s : string) : string * string :=
  match s with
  | String c r =>
      if Ascii.eqb c "." then
        let (fd, rest) := take_digits r in
        if String.eqb fd "" then ("", s) else (String "." fd, rest)
      else ("", s)
  | EmptyString => ("", s)
  end.

Definition scan_exp (s : string) : string * string :=
  match s with
  | String e r =>
      if Ascii.eqb e "e" || Ascii.eqb e "E" then
        let (sign, r1) :=
          match r with
          | String c x =>
              if Ascii.eqb c "+" || Ascii.eqb c "-"
              then (String c "", x) else ("", r)
          | EmptyString => ("", r)
          end in
        let (ed, rest) := take_digits r1 in
        if String.eqb ed "" then ("", s) else (String e (sign ++ ed), rest)
      else ("", s)
  | EmptyString => ("", s)
  end.

(** What a scanner gives: a value and the input after it; or the text is
    not what the scanner looks for, which [json.loads] reports as
    [JSONDecodeError]; or an exception of another class is raised on the
    way. *)
Inductive scan (A : Type) : Type :=
| Scanned (a : A) (rest : string)
| Malformed
| Raise (e : exception).
Arguments Scanned {A} a rest.
Arguments Malformed {A}.
Arguments Raise {A} e.

(** [int(ds)] refuses a literal of more than [max_digits] digits when the
    limit is on (it is off at 0); a literal of up to 640 digits is converted
    whatever the limit. *)
Definition too_many_digits (max_digits n : nat) : bool :=
  Nat.ltb 640 n && Nat.ltb 0 max_digits && Nat.ltb max_digits n.

Definition scan_number (max_digits : nat) (s : string) : scan json :=
  let (neg, s1) := scan_sign s in
  match scan_int s1 with
  | None => Malformed
  | Some (ds, s2) =>
      let (frac, s3) := scan_frac s2 in
      let (expo, s4) := scan_exp s3 in
      if String.eqb frac "" && String.eqb expo "" then
        if too_many_digits max_digits (String.length ds) then
          Raise (ValueError max_digits (String.length ds))
        else
          Scanned (JInt (if neg then - digits_value 0 ds
                         else digits_value 0 ds)) s4
      else
        Scanned (JFloat ((if neg then "-" else "") ++ ds ++ frac ++ expo)) s4
  end.

(** UTF-8 bytes of a code point (surrogates, which Python's [str] can hold,
    take the three-byte form). *)
Definition byte (n : N) : ascii := ascii_of_N (n mod 256).

Definition utf8 (cp : N) : list ascii :=
  (if cp <? 128 then [byte cp]
   else if cp <? 2048 then
     [byte (192 + cp / 64); byte (128 + cp mod 64)]
   else if cp <? 65536 then
     [byte (224 + cp / 4096); byte (128 + (cp / 64) mod 64);
      byte (128 + cp mod 64)]
   else
     [byte (240 + cp / 262144); byte (128 + (cp / 4096) mod 64);
      byte (128 + (cp / 64) mod 64); byte (128 + cp mod 64)])%N.

Definition hex_value (c : ascii) : option N :=
  let n := code c in
  (if (48 <=? n) && (n <=? 57) then Some (n - 48)
   else if (65 <=? n) && (n <=? 70) then Some (n - 55)
   else if (97 <=? n) && (n <=? 102) then Some (n - 87)
   else None)%N.

Definition is_high_surrogate (n : N) : bool := ((55296 <=? n) && (n <=? 56319))%N.
Definition is_low_surrogate (n : N) : bool := ((56320 <=? n) && (n <=? 57343))%N.
Definition join_surrogates (h l : N) : N :=
  (65536 + (h - 55296) * 1024 + (l - 56320))%N.

(** Where the string scanner is: in plain text, just after a backslash, or
    inside the four hexadecimal digits of a [\u] escape. *)
Inductive sstate : Type :=
| SPlain
| SEscape
| SHex (remaining : nat) (acc : N).

(** Output so far (latest byte first), with a high surrogate that still
    waits for its partner written out. *)
Definition flush (pending : option N) (out : list ascii) : list ascii :=
  match pending with
  | Some h => rev_append (utf8 h) out
  | None => out
  end.

Definition simple_escape (e : ascii) : option ascii :=
  match e with
  | "034"%char => Some "034"%char
  | "\"%char => Some "\"%char
  | "/"%char => Some "/"%char
  | "b"%char => Some "008"%char
  | "f"%char => Some "012"%char
  | "n"%char => Some "010"%char
  | "r"%char => Some "013"%char
  | "t"%char => Some "009"%char
  | _ => None
  end.

(** [scanstring], from just after the opening quote: the decoded text and
    the input after the closing quote. *)
Fixpoint scan_string (st : sstate) (pending : option N) (out : list ascii)
    (s : string) : option (string * string) :=
  match s with
  | EmptyString => None
  | String c r =>
      match st with
      | SPlain =>
          if Ascii.eqb c "034" then
            Some (string_of_list_ascii (rev (flush pending out)), r)
          else if Ascii.eqb c "\" then scan_string SEscape pending out r
          else if (code c <? 32)%N then None
          else scan_string SPlain None (c :: flush pending out) r
      | SEscape =>
          if Ascii.eqb c "u" then scan_string (SHex 3 0%N) pending out r
          else match simple_escape c with
               | Some d => scan_string SPlain None (d :: flush pending out) r
               | None => None
               end
      | SHex k acc =>
          match hex_value c with
          | None => None
          | Some d =>
              let v := (acc * 16 + d)%N in
              match k with
              | S k' => scan_string (SHex k' v) pending out r
              | O =>
                  match pending with
                  | Some h =>
                      if is_low_surrogate v then
                        scan_string SPlain None
                          (rev_append (utf8 (join_surrogates h v)) out) r
                      else if is_high_surrogate v then
                        scan_string SPlain (Some v) (flush pending out) r
                      else
                        scan_string SPlain None
                          (rev_append (utf8 v) (flush pending out)) r
                  | None =>
                      if is_high_surrogate v then
                        scan_string SPlain (Some v) out r
                      else scan_string SPlain None (rev_append (utf8 v) out) r
                  end
              end
          end
      end
  end.

(** The rest of [s] after the single character [c], when [s] starts
    with it. *)
Definition expect (c : ascii) (s : string) : option string :=
  match s with
  | String c' r => if Ascii.eqb c' c then Some r else None
  | EmptyString => None
  end.

(** The rest of [s] after [word], when [s] starts with it. *)
Fixpoint strip (word s : string) : option string :=
  match word with
  | EmptyString => Some s
  | String a word' =>
      match s with
      | String b s' => if Ascii.eqb a b then strip word' s' else None
      | EmptyString => None
      end
  end.

(** The values that are neither strings nor containers, in the order the
    scanner tries them. *)
Definition scan_constant (max_digits : nat) (s : string) : scan json :=
  match strip "null" s with Some r => Scanned JNull r | None =>
  match strip "true" s with Some r => Scanned (JBool true) r | None =>
  match strip "false" s with Some r => Scanned (JBool false) r | None =>
  match scan_number max_digits s with
  | Scanned v r => Scanned v r
  | Raise e => Raise e
  | Malformed =>
  match strip "NaN" s with Some r => Scanned (JFloat "NaN") r | None =>
  match strip "Infinity" s with Some r => Scanned (JFloat "Infinity") r | None =>
  match strip "-Infinity" s with Some r => Scanned (JFloat "-Infinity") r | None =>
  Malformed
  end end end end end end end.

(** [scan_once] with the array and object loops it calls.  The scanner
    enters a recursive call for every container it opens, before it looks
    inside: [depth] is how many more it may enter, and with none left
    [RecursionError] is raised.  [fuel] bounds the number of calls;
    [json_loads] gives more than any input can use (see [scan_once_fuel]
    below). *)
Fixpoint scan_once (fuel max_digits depth : nat) (s : string) : scan json :=
  match fuel with
  | O => Malformed
  | S f =>
      match s with
      | EmptyString => Malformed
      | String c r =>
          if Ascii.eqb c "034" then
            match scan_string SPlain None [] r with
            | Some (str, rest) => Scanned (JString str) rest
            | None => Malformed
            end
          else if Ascii.eqb c "{" then
            match depth with
            | O => Raise (RecursionError InObject)
            | S d =>
                match expect "}" (skip_ws r) with
                | Some rest => Scanned (JObject []) rest
                | None => scan_members f max_digits d (skip_ws r) []
                end
            end
          else if Ascii.eqb c "[" then
            match depth with
            | O => Raise (RecursionError InArray)
            | S d =>
                match expect "]" (skip_ws r) with
                | Some rest => Scanned (JArray []) rest
                | None => scan_items f max_digits d (skip_ws r) []
                end
            end
          else scan_constant max_digits s
      end
  end

with scan_items (fuel max_digits depth : nat) (s : string) (acc : list json)
  : scan json :=
  match fuel with
  | O => Malformed
  | S f =>
      match scan_once f max_digits depth s with
      | Malformed => Malformed
      | Raise e => Raise e
      | Scanned v r =>
          match expect "]" (skip_ws r) with
          | Some rest => Scanned (JArray (rev (v :: acc))) rest
          | None =>
              match expect "," (skip_ws r) with
              | Some rest => scan_items f max_digits depth (skip_ws rest) (v :: acc)
              | None => Malformed
              end
          end
      end
  end

with scan_members (fuel max_digits depth : nat) (s : string)
    (acc : list (string * json)) : scan json :=
  match fuel with
  | O => Malformed
  | S f =>
      match expect "034" s with
      | None => Malformed
      | Some r =>
          match scan_string SPlain None [] r with
          | None => Malformed
          | Some (key, r1) =>
              match expect ":" (skip_ws r1) with
              | None => Malformed
              | Some r2 =>
                  match scan_once f max_digits depth (skip_ws r2) with
                  | Malformed => Malformed
                  | Raise e => Raise e
                  | Scanned v r3 =>
                      match expect "}" (skip_ws r3) with
                      | Some rest =>
                          Scanned (JObject (assoc_set key v acc)) rest
                      | None =>
                          match expect "," (skip_ws r3) with
                          | Some rest =>
                              scan_members f max_digits depth (skip_ws rest)
                                (assoc_set key v acc)
                          | None => Malformed
                          end
                      end
                  end
              end
          end
      end
  end.

(** What [json.loads(s)] does: it returns the decoded value, raises
    [JSONDecodeError], or lets an exception of the scanner through. *)
Inductive loaded : Type :=
| Decoded (v : json)
| JSONDecodeError
| Raises (e : exception).

Definition json_loads (lim : Limits) (s : string) : loaded :=
  match scan_once (2 * String.length s + 2) (int_max_str_digits lim)
          (recursion_budget lim) (skip_ws s) with
  | Scanned v rest =>
      match skip_ws rest with
      | EmptyString => Decoded v
      | _ => JSONDecodeError
      end
  | Malformed => JSONDecodeError
  | Raise e => Raises e
  end.

End PyJson.
Export PyJson.

(** ** The process: trace, exit, operating system *)

Module Process.

(** What [subprocess.run(cmd, capture_output=True, text=True, timeout=t)]
    meets when it starts [cmd]. *)
Inductive Child : Type :=
| Fails (msg : string)
    (* an exception other than [TimeoutExpired] is raised (the binary cannot
       be executed, its output is not text, ...); [msg] is [str(e)] *)
| Exits (elapsed : Q) (returncode : Z) (stdout stderr : string)
    (* the child ends by itself after [elapsed] seconds *)
| Hangs.
    (* the child never ends by itself *)

(** What [Path(p).exists()] does.  It answers, or the [stat] call behind it
    fails with an error that [exists] does not take for an absent file
    (permission denied on a directory of the path, for one) and the
    [OSError] leaves [exists]; [msg] is [str(e)]. *)
Inductive Existence : Type :=
| Answers (b : bool)
| OSError (msg : string).

Record World : Type := {
  path_exists : string -> Existence;       (* [Path(p).exists()] *)
  environ : string -> option string;       (* [os.environ] *)
  script_path : string -> string;          (* [str(Path(__file__).parent / name)] *)
  child : list string -> Child;            (* the behaviour of a command line *)
  limits : Limits                          (* the interpreter's settings *)
}.

Inductive CompletedOrRaised : Type :=
| CompletedProcess (returncode : Z) (stdout stderr : string)
| TimeoutExpired
| Exception (msg : string).

Inductive event : Type :=
| Probe (path : string)                          (* [Path(path).exists()] *)
| Dispatch (script_name : string) (args : list string)
                                                 (* [run_blender_script] entered *)
| Spawn (cmd : list string) (timeout : Q)        (* [subprocess.run] *)
| Print (v : json).                              (* [print(json.dumps(v))] *)

(** A computation returns, leaves through [sys.exit], or ends in an
    exception that nothing catches ([msg] is [str(e)]). *)
Inductive outcome (A : Type) : Type :=
| Returns (a : A)
| SystemExit (status : Z)
| Uncaught (msg : string).
Arguments Returns {A} a.
Arguments SystemExit {A} status.
Arguments Uncaught {A} msg.

Definition Proc (A : Type) : Type := list event * outcome A.

Definition ret {A} (a : A) : Proc A := ([], Returns a).

Definition bind {A B} (m : Proc A) (k : A -> Proc B) : Proc B :=
  match m with
  | (t, Returns a) => let (t', o) := k a in ((t ++ t')%list, o)
  | (t, SystemExit n) => (t, SystemExit n)
  | (t, Uncaught msg) => (t, Uncaught msg)
  end.

Definition emit (e : event) : Proc unit := ([e], Returns tt).

Definition sys_exit {A} (status : Z) : Proc A := ([], SystemExit status).

Definition raise {A} (msg : string) : Proc A := ([], Uncaught msg).

Definition print (v : json) : Proc unit := emit (Print v).

Definition trace {A} (m : Proc A) : list event := fst m.

End Process.
Export Process.

Declare Scope proc_scope.
Delimit Scope proc_scope with proc.
Notation "x <- c ;; k" := (bind c (fun x => k))
  (at level 61, c at next level, right associativity) : proc_scope.
Notation "c ;; k" := (bind c (fun _ => k))
  (at level 61, right associativity) : proc_scope.
Local Open Scope proc_scope.

(** [subprocess.run] with a timeout: the child is waited for; when it has
    not ended after [timeout] seconds it is killed and [TimeoutExpired] is
    raised. *)
Definition subprocess_run (w : World) (cmd : list string) (timeout : Q)
  : Proc CompletedOrRaised :=
  emit (Spawn cmd timeout) ;;
  ret match child w cmd with
      | Fails msg => Exception msg
      | Exits elapsed rc out err =>
          if Qle_bool elapsed timeout then CompletedProcess rc out err
          else TimeoutExpired
      | Hangs => TimeoutExpired
      end.

(** ** blender_wrapper.py *)

Definition blender_paths : list string :=
  [ "/usr/bin/blender";
    "/usr/local/bin/blender";
    "/Applications/Blender.app/Contents/MacOS/Blender";
    "C:\Program Files\Blender Foundation\Blender\blender.exe" ].

(** The loop [for path in blender_paths: if Path(path).exists(): ... break]:
    the first candidate that exists, if any.  The loop is not inside a
    [try]: an [OSError] of a probe leaves the function. *)
Fixpoint find_blender (w : World) (paths : list string) : Proc (option string) :=
  match paths with
  | [] => ret None
  | path :: rest =>
      emit (Probe path) ;;
      match path_exists w path with
      | Answers true => ret (Some path)
      | Answers false => find_blender w rest
      | OSError msg => raise msg
      end
  end.

Definition not_found_message : string :=
  "Blender executable not found. Please install Blender or set BLENDER_PATH environment variable.".

Definition timeout_message : string := "Blender operation timed out (5 minutes)".

(** The command line: the executable in background mode, the script, and
    the arguments after the separator. *)
Definition command_line (w : World) (blender_exe script_name : string)
    (args : list string) : list string :=
  ([blender_exe; "--background"; "--python"; script_path w script_name; "--"]
     ++ args)%list.

(** [timeout=300], in seconds. *)
Definition timeout : Q := 300 # 1.

Definition run_blender_script (w : World) (script_name : string)
    (args : list string) : Proc json :=
  emit (Dispatch script_name args) ;;
  blender_exe <- find_blender w blender_paths ;;
  match blender_exe with
  | None =>
      ret (JObject [("success", JBool false);
                    ("error", JString not_found_message)])
  | Some exe =>
      let cmd := command_line w exe script_name args in
      result <- subprocess_run w cmd timeout ;;
      match result with
      | CompletedProcess returncode stdout stderr =>
          match json_loads (limits w) stdout with
          | Decoded output_data =>
              ret (JObject [("success", JBool (returncode =? 0));
                            ("data", output_data);
                            ("stderr", JString stderr)])
          | JSONDecodeError =>
              ret (JObject [("success", JBool (returncode =? 0));
                            ("stdout", JString stdout);
                            ("stderr", JString stderr)])
          | Raises e =>
              ret (JObject [("success", JBool false);
                            ("error", JString (str e))])
          end
      | TimeoutExpired =>
          ret (JObject [("success", JBool false);
                        ("error", JString timeout_message)])
      | Exception msg =>
          ret (JObject [("success", JBool false);
                        ("error", JString msg)])
      end
  end.

(** The [argparse] namespace [main] works on.  An option that was not given
    is [None]; the three counts have defaults. *)
Record Namespace : Type := {
  command : string;
  input : option string;
  output : option string;
  formats : option string;
  target_polys : option Z;
  platform : option string;
  quality : option string;
  resolution : Z;
  samples : Z;
  lod_levels : Z
}.

(** [not x] for an optional string: true for [None] and for the empty
    string. *)
Definition py_not (x : option string) : bool :=
  match x with
  | None => true
  | Some s => String.eqb s ""
  end.

(** [x or default] *)
Definition py_or (x : option string) (default : string) : string :=
  match x with
  | Some s => if String.eqb s "" then default else s
  | None => default
  end.

(** The string an option holds, where a guard has established that it
    holds one. *)
Definition value (x : option string) : string :=
  match x with Some s => s | None => "" end.

Definition failure (msg : string) : json :=
  JObject [("success", JBool false); ("error", JString msg)].

Definition placeholder (msg : string) : json :=
  JObject [("success", JBool true); ("message", JString msg)].

Definition main (w : World) (args : Namespace) : Proc unit :=
  result <-
    (if String.eqb (command args) "import_export" then
       (if py_not (input args) || py_not (output args) then
          print (failure "Missing --input or --output") ;; sys_exit 1
        else ret tt) ;;
       let formats := py_or (formats args) "obj,fbx" in
       run_blender_script w "automation.py"
         ["import_export"; value (input args); value (output args); formats]
     else if String.eqb (command args) "cleanup" then
       (if py_not (input args) || py_not (output args) then
          print (failure "Missing --input or --output") ;; sys_exit 1
        else ret tt) ;;
       run_blender_script w "automation.py"
         ["cleanup"; value (input args); value (output args)]
     else if String.eqb (command args) "stats" then
       (if py_not (input args) then
          print (failure "Missing --input") ;; sys_exit 1
        else ret tt) ;;
       run_blender_script w "automation.py" ["stats"; value (input args)]
     else if String.eqb (command args) "optimize" then
       (if py_not (input args) || py_not (output args)
           || py_not (platform args) then
          print (failure "Missing --input, --output, or --platform") ;;
          sys_exit 1
        else ret tt) ;;
       ret (placeholder "Optimization script to be implemented")
     else if String.eqb (command args) "generate_lods" then
       (if py_not (input args) || py_not (output args) then
          print (failure "Missing --input or --output") ;; sys_exit 1
        else ret tt) ;;
       ret (placeholder "LOD generation script to be implemented")
     else if String.eqb (command args) "bake_textures" then
       (if py_not (input args) || py_not (output args) then
          print (failure "Missing --input or --output") ;; sys_exit 1
        else ret tt) ;;
       ret (placeholder "Texture baking script to be implemented")
     else
       ret (failure ("Unknown command: " ++ command args))) ;;
  print result ;;
  sys_exit (if get_truthy "success" result then 0 else 1).

(** ** Reading a run *)

(** What a computation returned, if it returned. *)
Definition returned {A} (m : Proc A) : option A :=
  match snd m with Returns a => Some a | _ => None end.

(** The exit status, if the computation left through [sys.exit]. *)
Definition exit_status {A} (m : Proc A) : option Z :=
  match snd m with SystemExit n => Some n | _ => None end.

(** The exception the computation ended in, if nothing caught one. *)
Definition uncaught {A} (m : Proc A) : option string :=
  match snd m with Uncaught msg => Some msg | _ => None end.

(** The objects written to standard output, in order. *)
Fixpoint printed (t : list event) : list json :=
  match t with
  | [] => []
  | Print v :: rest => v :: printed rest
  | _ :: rest => printed rest
  end.

(** The command lines handed to [subprocess.run], in order. *)
Fixpoint spawned (t : list event) : list (list string) :=
  match t with
  | [] => []
  | Spawn cmd _ :: rest => cmd :: spawned rest
  | _ :: rest => spawned rest
  end.

(** The calls of [run_blender_script], in order. *)
Fixpoint dispatched (t : list event) : list (string * list string) :=
  match t with
  | [] => []
  | Dispatch s a :: rest => (s, a) :: dispatched rest
  | _ :: rest => dispatched rest
  end.

(** How the search through [paths] ends: with the first candidate that
    exists, with none, or in the [OSError] of a probe. *)
Fixpoint search (w : World) (paths : list string) : outcome (option string) :=
  match paths with
  | [] => Returns None
  | p :: rest =>
      match path_exists w p with
      | Answers true => Returns (Some p)
      | Answers false => search w rest
      | OSError msg => Uncaught msg
      end
  end.

(** The executable the resolution step selects. *)
Definition resolve (w : World) : option string :=
  match search w blender_paths with
  | Returns (Some exe) => Some exe
  | _ => None
  end.

(** The candidates the loop looks at before it stops. *)
Fixpoint probed (w : World) (paths : list string) : list string :=
  match paths with
  | [] => []
  | p :: rest =>
      p :: match path_exists w p with
           | Answers false => probed w rest
           | _ => []
           end
  end.

(** Every probe the resolution step makes gets an answer. *)
Definition probes_answer (w : World) : Prop :=
  forall p, In p (probed w blender_paths) ->
            exists b, path_exists w p = Answers b.

(** The classification of what [subprocess.run] gave. *)
Definition classify (lim : Limits) (r : CompletedOrRaised) : json :=
  match r with
  | CompletedProcess rc out err =>
      match json_loads lim out with
      | Decoded v =>
          JObject [("success", JBool (rc =? 0)); ("data", v);
                   ("stderr", JString err)]
      | JSONDecodeError =>
          JObject [("success", JBool (rc =? 0)); ("stdout", JString out);
                   ("stderr", JString err)]
      | Raises e => failure (str e)
      end
  | TimeoutExpired => failure timeout_message
  | Exception msg => failure msg
  end.

(** What waiting [timeout] seconds for a child gives. *)
Definition await (c : Child) : CompletedOrRaised :=
  match c with
  | Fails msg => Exception msg
  | Exits elapsed rc out err =>
      if Qle_bool elapsed timeout then CompletedProcess rc out err
      else TimeoutExpired
  | Hangs => TimeoutExpired
  end.

(** The child ends by itself within the timeout, with this exit code and
    these captured streams. *)
Definition completes (c : Child) (rc : Z) (out err : string) : Prop :=
  exists elapsed, c = Exits elapsed rc out err /\ (elapsed <= timeout)%Q.

(** The child is still running when the timeout is over. *)
Definition exceeds_timeout (c : Child) : Prop :=
  match c with
  | Exits elapsed _ _ _ => (timeout < elapsed)%Q
  | Hangs => True
  | Fails _ => False
  end.

(** [0 if result.get('success') else 1] *)
Definition exit_code (result : json) : Z :=
  if get_truthy "success" result then 0 else 1.

(** How a run of [main] can go: it prints one object and exits with the
    status that object gives; before that it either does nothing (a missing
    option, a placeholder, an unknown command) or makes one dispatcher call
    whose result is the object. *)
Inductive main_run (w : World) (args : Namespace)
  : list event -> json -> Prop :=
| run_rejected (msg : string) :
    startswith "Missing --" msg = true ->
    main_run w args [] (failure msg)
| run_placeholder (msg : string) :
    main_run w args [] (placeholder msg)
| run_unknown :
    main_run w args [] (failure ("Unknown command: " ++ command args))
| run_dispatched (a : list string) (t : list event) (r : json) :
    run_blender_script w "automation.py" a = (t, Returns r) ->
    main_run w args t r.

(** How [main] ends once the dispatcher has been called. *)
Definition finish (m : Proc json) : Proc unit :=
  match m with
  | (t, Returns r) => ((t ++ [Print r])%list, SystemExit (exit_code r))
  | (t, SystemExit n) => (t, SystemExit n)
  | (t, Uncaught msg) => (t, Uncaught msg)
  end.

(** A run of [main] that is cut short: the dispatcher call ended in the
    [OSError] of a probe, before anything was started or printed. *)
Definition cut_short (w : World) (args : Namespace) : Prop :=
  exists a p msg,
    In p (probed w blender_paths) /\ path_exists w p = OSError msg /\
    main w args
    = (Dispatch "automation.py" a :: map Probe (probed w blender_paths),
       Uncaught msg).

(** The invariant of a result [r] that came with the trace [t]: an [error]
    goes with [success = False], and so does a child with a non-zero exit
    code. *)
Definition failure_is_reported (w : World) (t : list event) (r : json) : Prop :=
  (has_key "error" r = true -> dict_get "success" r = Some (JBool false)) /\
  (forall cmd tm elapsed rc out err,
      In (Spawn cmd tm) t ->
      child w cmd = Exits elapsed rc out err ->
      rc <> 0 ->
      dict_get "success" r = Some (JBool false)).

(** A result is an object whose [success] is a boolean. *)
Definition is_result (r : json) : Prop :=
  exists ms b, r = JObject ms /\ dict_get "success" r = Some (JBool b).

(** ** Test doubles *)

(** The settings CPython 3.11 starts with: integer literals of up to 4300
    digits, and a recursion limit of 1000, of which 993 levels are left
    where [run_blender_script] calls [json.loads]. *)
Definition default_limits : Limits :=
  {| int_max_str_digits := 4300; recursion_budget := 993 |}.

(** [c * n] of Python: the character [c], [n] times. *)
Fixpoint replicate (n : nat) (c : ascii) : string :=
  match n with
  | O => EmptyString
  | S k => String c (replicate k c)
  end.

(** A machine on which exactly the paths of [installed] exist, the
    environment is [env], the module lives in [/srv/blender], every
    command line behaves as [c], and the interpreter has its default
    settings. *)
Definition mock_world (installed : list string) (env : list (string * string))
    (c : Child) : World :=
  {| path_exists := fun p => Answers (existsb (String.eqb p) installed);
     environ := fun k =>
       match find (fun kv => String.eqb k (fst kv)) env with
       | Some kv => Some (snd kv)
       | None => None
       end;
     script_path := fun name => "/srv/blender/" ++ name;
     child := fun _ => c;
     limits := default_limits |}.

(** Blender at its usual Linux place, with a child that ends after one
    second. *)
Definition subprocess_mock (returncode : Z) (stdout stderr : string) : World :=
  mock_world ["/usr/bin/blender"] [] (Exits (1 # 1) returncode stdout stderr).

(** The same machine for a user who may not search [/usr/bin]: the probe of
    the first candidate fails. *)
Definition permission_denied : string :=
  "[Errno 13] Permission denied: '/usr/bin/blender'".

Definition locked_world (c : Child) : World :=
  {| path_exists := fun p =>
       if String.eqb p "/usr/bin/blender" then OSError permission_denied
       else Answers false;
     environ := fun _ => None;
     script_path := fun name => "/srv/blender/" ++ name;
     child := fun _ => c;
     limits := default_limits |}.

(** The output [{"mesh_count": 2, "total_vertices": 10}] of a [stats] run. *)
Definition mesh_stats_stdout : string :=
  "{" ++ quoted "mesh_count" ++ ": 2, " ++ quoted "total_vertices" ++ ": 10}".

(** A namespace as [argparse] builds it: the command, the three path-like
    options, and the defaults of the rest. *)
Definition request (cmd : string) (i o p : option string) : Namespace :=
  {| command := cmd; input := i; output := o; formats := None;
     target_polys := None; platform := p; quality := None;
     resolution := 2048; samples := 64; lod_levels := 5 |}.

(** ** Required options and fixed texts *)

Inductive option_name : Type := Input | Output | Platform.

(** The flag as it is typed on the command line. *)
Definition flag (o : option_name) : string :=
  match o with
  | Input => "--input"
  | Output => "--output"
  | Platform => "--platform"
  end.

(** What the namespace holds for an option. *)
Definition given (args : Namespace) (o : option_name) : option string :=
  match o with
  | Input => input args
  | Output => output args
  | Platform => platform args
  end.

(** The options each command is said to require; the guards of [main] are
    checked against this table below. *)
Definition required_options (cmd : string) : list option_name :=
  if String.eqb cmd "import_export" then [Input; Output]
  else if String.eqb cmd "cleanup" then [Input; Output]
  else if String.eqb cmd "stats" then [Input]
  else if String.eqb cmd "optimize" then [Input; Output; Platform]
  else if String.eqb cmd "generate_lods" then [Input; Output]
  else if String.eqb cmd "bake_textures" then [Input; Output]
  else [].

(** Some required option of the command is missing or empty. *)
Definition lacks_required (args : Namespace) : bool :=
  existsb (fun o => py_not (given args o)) (required_options (command args)).

(** The text of the rejection, per command. *)
Definition missing_message (cmd : string) : string :=
  if String.eqb cmd "stats" then "Missing --input"
  else if String.eqb cmd "optimize" then
    "Missing --input, --output, or --platform"
  else "Missing --input or --output".

Definition known_commands : list string :=
  ["import_export"; "cleanup"; "stats"; "optimize"; "generate_lods";
   "bake_textures"].

(** The text each placeholder command answers with. *)
Definition stub_message (cmd : string) : string :=
  if String.eqb cmd "optimize" then "Optimization script to be implemented"
  else if String.eqb cmd "generate_lods" then
    "LOD generation script to be implemented"
  else "Texture baking script to be implemented".

(** ** The router's calls *)

(** The argument list [main] hands to the dispatcher for the commands that
    have a script behind them; the calls of [main] are checked against this
    table below. *)
Definition dispatch_args (args : Namespace) : list string :=
  if String.eqb (command args) "import_export" then
    ["import_export"; value (input args); value (output args);
     py_or (formats args) "obj,fbx"]
  else if String.eqb (command args) "cleanup" then
    ["cleanup"; value (input args); value (output args)]
  else if String.eqb (command args) "stats" then
    ["stats"; value (input args)]
  else [].

Definition script_commands : list string := ["import_export"; "cleanup"; "stats"].

(** ** automation.py: the script the dispatcher runs inside Blender *)

Module Automation.

(** *** Python strings and lists *)

(** [s.endswith(suffix)] *)
Fixpoint endswith (suffix s : string) : bool :=
  if String.eqb suffix s then true
  else match s with
       | EmptyString => false
       | String _ rest => endswith suffix rest
       end.

(** [s.split(sep)] for a separator of one character: the pieces between
    the separators, empty pieces included; never the empty list. *)
Fixpoint split (sep : ascii) (s : string) : list string :=
  match s with
  | EmptyString => [EmptyString]
  | String c rest =>
      if Ascii.eqb c sep then EmptyString :: split sep rest
      else match split sep rest with
           | piece :: pieces => String c piece :: pieces
           | [] => [String c EmptyString]
           end
  end.

(** The last character of a string. *)
Fixpoint last_char (s : string) : option ascii :=
  match s with
  | EmptyString => None
  | String c EmptyString => Some c
  | String _ rest => last_char rest
  end.

(** [x in l] *)
Definition list_in (x : string) (l : list string) : bool :=
  existsb (String.eqb x) l.

(** [l.index(x)], where [x] is in [l]: the position of its first
    occurrence. *)
Fixpoint list_index (x : string) (l : list string) : nat :=
  match l with
  | [] => O
  | y :: rest => if String.eqb x y then O else S (list_index x rest)
  end.

(** The arguments of the script: what follows the first ["--"] of
    [sys.argv], or all but the first element when there is no ["--"]. *)
Definition script_args (argv : list string) : list string :=
  if list_in "--" argv then skipn (list_index "--" argv + 1) argv
  else skipn 1 argv.

(** *** The scene, as the script reads it *)

(** Of a mesh the script reads the number of vertices and, for each
    polygon, the number of its vertices. *)
Record Mesh : Type := {
  vertices : nat;
  polygons : list nat
}.

Record Object : Type := {
  name : string;
  type : string;
  data : Mesh
}.

(** *** Blender, as the script drives it *)

(** The operators the script calls and the settings it writes.  The keyword
    arguments that the script fixes once and for all are left out
    ([use_selection=False], [use_materials=True], ...). *)
Inductive call : Type :=
| object_select_all (action : string)
| object_delete
| set_unit_system (system : string)
| set_scale_length (scale : Q)
| import_scene_obj (filepath : string)
| import_scene_fbx (filepath : string)
| mkdir_parent (filepath : string)
    (* [Path(filepath).parent.mkdir(parents=True, exist_ok=True)] *)
| export_scene_obj (filepath : string) (use_mesh_modifiers : bool)
| export_scene_fbx (filepath : string)
    (use_mesh_modifiers use_armature_deform_only : bool)
| export_scene_gltf (filepath export_format : string)
    (export_draco_mesh_compression_enable : bool)
| wm_collada_export (filepath : string)
| select_set (obj : Object) (selected : bool)
| set_active (obj : Object)
| object_mode_set (mode : string)
| mesh_select_all (action : string)
| mesh_remove_doubles (threshold : Q)
| mesh_normals_make_consistent (inside : bool)
| mesh_delete_loose
| uv_smart_project (island_margin : Q)
| uv_cube_project
| uv_sphere_project
| uv_cylinder_project.

(** The host the script runs in.  A call changes the state of Blender and
    may raise; [Some e] is an exception whose text is [e].  The two path
    functions are those of the platform. *)
Record Host : Type := {
  state : Type;
  exec : call -> state -> state * option string;
  scene_objects : state -> list Object;      (* [bpy.context.scene.objects] *)
  selected_objects : state -> list Object;   (* [bpy.context.selected_objects] *)
  stem : string -> string;                   (* [Path(p).stem] *)
  path_join : string -> string -> string     (* [os.path.join(a, b)] *)
}.

Inductive output : Type :=
| Called (c : call)
| Stdout (v : json)        (* [print(json.dumps(v))] *)
| Stderr (line : string).  (* [print(line, file=sys.stderr)] *)

(** A computation returns, leaves through [sys.exit], or dies of an
    exception nobody catches. *)
Inductive result (A : Type) : Type :=
| Ok (a : A)
| Exit (status : Z)
| Raised (msg : string).
Arguments Ok {A} a.
Arguments Exit {A} status.
Arguments Raised {A} msg.

Section Script.
Variable H : Host.

Definition Script (A : Type) : Type :=
  state H -> state H * list output * result A.

Definition ret {A} (a : A) : Script A := fun s => (s, [], Ok a).

Definition bind {A B} (m : Script A) (k : A -> Script B) : Script B :=
  fun s =>
    match m s with
    | (s1, t1, Ok a) =>
        match k a s1 with
        | (s2, t2, r) => (s2, (t1 ++ t2)%list, r)
        end
    | (s1, t1, Exit n) => (s1, t1, Exit n)
    | (s1, t1, Raised e) => (s1, t1, Raised e)
    end.

Definition emit (o : output) : Script unit := fun s => (s, [o], Ok tt).

Definition sys_exit {A} (status : Z) : Script A :=
  fun s => (s, [], Exit status).

Definition raise {A} (msg : string) : Script A :=
  fun s => (s, [], Raised msg).

(** One call into Blender. *)
Definition bpy (c : call) : Script unit :=
  fun s =>
    match exec H c s with
    | (s', None) => (s', [Called c], Ok tt)
    | (s', Some e) => (s', [Called c], Raised e)
    end.

Definition read {A} (f : state H -> A) : Script A := fun s => (s, [], Ok (f s)).

(** [l[i]]; out of range it raises [IndexError]. *)
Definition item (l : list string) (i : nat) : Script string :=
  match nth_error l i with
  | Some x => ret x
  | None => raise "list index out of range"
  end.

(** [try: body / except Exception as e: print(f"{label}{e}", file=sys.stderr);
    return False] *)
Definition attempt (label : string) (body : Script bool) : Script bool :=
  fun s =>
    match body s with
    | (s', t, Raised e) => (s', (t ++ [Stderr (label ++ e)])%list, Ok false)
    | other => other
    end.

End Script.

Arguments ret {H A} a.
Arguments bind {H A B} m k.
Arguments emit {H} o.
Arguments sys_exit {H A} status.
Arguments raise {H A} msg.
Arguments bpy {H} c.
Arguments read {H A} f.
Arguments item {H} l i.
Arguments attempt {H} label body.

Declare Scope script_scope.
Delimit Scope script_scope with script.
Notation "x <- c ;; k" := (bind c (fun x => k))
  (at level 61, c at next level, right associativity) : script_scope.
Notation "c ;; k" := (bind c (fun _ => k))
  (at level 61, right associativity) : script_scope.
Local Open Scope script_scope.

(** [print(line, file=sys.stderr)] *)
Definition eprint {H : Host} (line : string) : Script H unit :=
  emit (Stderr line).

(** [for x in l: body(x)] *)
Fixpoint for_each {H : Host} {A : Type} (l : list A)
    (body : A -> Script H unit) : Script H unit :=
  match l with
  | [] => ret tt
  | x :: rest => body x ;; for_each rest body
  end.

(** *** class BlenderAutomation *)

Section BlenderAutomation.
Variable H : Host.

(** [_setup_scene], which [__init__] calls: no [try] around it. *)
Definition _setup_scene : Script H unit :=
  bpy (object_select_all "SELECT") ;;
  bpy object_delete ;;
  bpy (set_unit_system "METRIC") ;;
  bpy (set_scale_length (1 # 1)).

Definition import_obj (filepath : string) : Script H bool :=
  attempt "Error importing OBJ: "
    (bpy (import_scene_obj filepath) ;; ret true).

Definition import_fbx (filepath : string) : Script H bool :=
  attempt "Error importing FBX: "
    (bpy (import_scene_fbx filepath) ;; ret true).

Definition export_obj (filepath : string) (apply_modifiers : bool)
  : Script H bool :=
  attempt "Error exporting OBJ: "
    (bpy (mkdir_parent filepath) ;;
     bpy (export_scene_obj filepath apply_modifiers) ;;
     ret true).

Definition export_fbx (filepath : string) (apply_modifiers use_armature : bool)
  : Script H bool :=
  attempt "Error exporting FBX: "
    (bpy (mkdir_parent filepath) ;;
     bpy (export_scene_fbx filepath apply_modifiers use_armature) ;;
     ret true).

Definition export_gltf (filepath : string) (draco_compression : bool)
  : Script H bool :=
  attempt "Error exporting GLTF: "
    (bpy (mkdir_parent filepath) ;;
     let export_format :=
       if endswith ".glb" filepath then "GLB" else "GLTF_SEPARATE" in
     bpy (export_scene_gltf filepath export_format draco_compression) ;;
     ret true).

Definition export_dae (filepath : string) : Script H bool :=
  attempt "Error exporting DAE: "
    (bpy (mkdir_parent filepath) ;;
     bpy (wm_collada_export filepath) ;;
     ret true).

(** The loop both clean-up methods start with: every mesh object of the
    scene is selected. *)
Definition select_meshes : Script H unit :=
  bpy (object_select_all "DESELECT") ;;
  objects <- read (scene_objects H) ;;
  for_each objects
    (fun obj =>
       if String.eqb (type obj) "MESH" then bpy (select_set obj true)
       else ret tt).

Definition cleanup_mesh (remove_doubles : bool) (distance : Q)
  : Script H bool :=
  attempt "Error cleaning mesh: "
    (select_meshes ;;
     selected <- read (selected_objects H) ;;
     match selected with
     | [] => ret true
     | first :: _ =>
         bpy (set_active first) ;;
         bpy (object_mode_set "EDIT") ;;
         bpy (mesh_select_all "SELECT") ;;
         (if remove_doubles then bpy (mesh_remove_doubles distance)
          else ret tt) ;;
         bpy (mesh_normals_make_consistent false) ;;
         bpy mesh_delete_loose ;;
         bpy (object_mode_set "OBJECT") ;;
         ret true
     end).

Definition unwrap_uvs (method : string) : Script H bool :=
  attempt "Error unwrapping UVs: "
    (select_meshes ;;
     selected <- read (selected_objects H) ;;
     match selected with
     | [] => ret true
     | first :: _ =>
         bpy (set_active first) ;;
         bpy (object_mode_set "EDIT") ;;
         bpy (mesh_select_all "SELECT") ;;
         (if String.eqb method "smart" then bpy (uv_smart_project (2 # 100))
          else if String.eqb method "cube" then bpy uv_cube_project
          else if String.eqb method "sphere" then bpy uv_sphere_project
          else if String.eqb method "cylinder" then bpy uv_cylinder_project
          else bpy (uv_smart_project (2 # 100))) ;;
         bpy (object_mode_set "OBJECT") ;;
         ret true
     end).

End BlenderAutomation.

(** *** get_mesh_stats *)

(** One entry of ["meshes"]. *)
Record MeshEntry : Type := {
  entry_name : string;
  entry_vertices : Z;
  entry_faces : Z;
  entry_triangles : Z
}.

(** The dictionary [stats]. *)
Record Stats : Type := {
  mesh_count : Z;
  total_vertices : Z;
  total_faces : Z;
  total_triangles : Z;
  meshes : list MeshEntry
}.

(** [sum(1 if len(poly.vertices) == 3 else len(poly.vertices) - 2
        for poly in mesh.polygons)] *)
Definition triangles (mesh : Mesh) : Z :=
  fold_left Z.add
    (map (fun n : nat => if Z.of_nat n =? 3 then 1 else Z.of_nat n - 2)
         (polygons mesh))
    0.

(** The body of the loop, for one object. *)
Definition add_object (stats : Stats) (obj : Object) : Stats :=
  if String.eqb (type obj) "MESH" then
    let mesh := data obj in
    {| mesh_count := mesh_count stats + 1;
       total_vertices := total_vertices stats + Z.of_nat (vertices mesh);
       total_faces := total_faces stats + Z.of_nat (length (polygons mesh));
       total_triangles := total_triangles stats + triangles mesh;
       meshes :=
         (meshes stats
            ++ [{| entry_name := name obj;
                   entry_vertices := Z.of_nat (vertices mesh);
                   entry_faces := Z.of_nat (length (polygons mesh));
                   entry_triangles := triangles mesh |}])%list |}
  else stats.

Definition no_stats : Stats :=
  {| mesh_count := 0; total_vertices := 0; total_faces := 0;
     total_triangles := 0; meshes := [] |}.

Definition get_mesh_stats (objects : list Object) : Stats :=
  fold_left add_object objects no_stats.

(** The dictionaries as [json.dumps] sees them. *)
Definition entry_json (e : MeshEntry) : json :=
  JObject [("name", JString (entry_name e));
           ("vertices", JInt (entry_vertices e));
           ("faces", JInt (entry_faces e));
           ("triangles", JInt (entry_triangles e))].

Definition stats_json (stats : Stats) : json :=
  JObject [("mesh_count", JInt (mesh_count stats));
           ("total_vertices", JInt (total_vertices stats));
           ("total_faces", JInt (total_faces stats));
           ("total_triangles", JInt (total_triangles stats));
           ("meshes", JArray (map entry_json (meshes stats)))].

(** *** main *)

Definition usage : string :=
  "Usage: blender --background --python automation.py -- <command> [args...]".

Section Main.
Variable H : Host.

(** [stats = automation.get_mesh_stats(); print(json.dumps(stats))] *)
Definition print_stats : Script H unit :=
  objects <- read (scene_objects H) ;;
  emit (Stdout (stats_json (get_mesh_stats objects))).

Definition main (argv : list string) : Script H unit :=
  if (length argv <? 2)%nat then
    eprint usage ;; sys_exit 1
  else
    let args := script_args argv in
    command <- item args 0 ;;
    _setup_scene H ;;
    if String.eqb command "import_export" then
      input_file <- item args 1 ;;
      output_dir <- item args 2 ;;
      formats <-
        (if (3 <? length args)%nat then
           a3 <- item args 3 ;; ret (split "," a3)
         else ret ["obj"; "fbx"]) ;;
      (if endswith ".obj" input_file then _ <- import_obj H input_file ;; ret tt
       else if endswith ".fbx" input_file then
         _ <- import_fbx H input_file ;; ret tt
       else ret tt) ;;
      _ <- cleanup_mesh H true (1 # 10000) ;;
      let base_name := stem H input_file in
      for_each formats
        (fun fmt =>
           let output_path := path_join H output_dir (base_name ++ "." ++ fmt) in
           if String.eqb fmt "obj" then
             _ <- export_obj H output_path true ;; ret tt
           else if String.eqb fmt "fbx" then
             _ <- export_fbx H output_path true true ;; ret tt
           else if String.eqb fmt "gltf" || String.eqb fmt "glb" then
             _ <- export_gltf H output_path false ;; ret tt
           else if String.eqb fmt "dae" then
             _ <- export_dae H output_path ;; ret tt
           else ret tt) ;;
      print_stats
    else if String.eqb command "cleanup" then
      input_file <- item args 1 ;;
      output_file <- item args 2 ;;
      (if endswith ".obj" input_file then _ <- import_obj H input_file ;; ret tt
       else if endswith ".fbx" input_file then
         _ <- import_fbx H input_file ;; ret tt
       else ret tt) ;;
      _ <- cleanup_mesh H true (1 # 10000) ;;
      _ <- unwrap_uvs H "smart" ;;
      (if endswith ".obj" output_file then
         _ <- export_obj H output_file true ;; ret tt
       else if endswith ".fbx" output_file then
         _ <- export_fbx H output_file true true ;; ret tt
       else ret tt) ;;
      print_stats
    else if String.eqb command "stats" then
      input_file <- item args 1 ;;
      (if endswith ".obj" input_file then _ <- import_obj H input_file ;; ret tt
       else if endswith ".fbx" input_file then
         _ <- import_fbx H input_file ;; ret tt
       else ret tt) ;;
      print_stats
    else
      eprint ("Unknown command: " ++ command) ;; sys_exit 1.

End Main.

(** *** Reading a run of the script *)

(** The objects written to standard output, in order. *)
Fixpoint stdout (t : list output) : list json :=
  match t with
  | [] => []
  | Stdout v :: rest => v :: stdout rest
  | _ :: rest => stdout rest
  end.

(** The lines written to standard error, in order. *)
Fixpoint stderr (t : list output) : list string :=
  match t with
  | [] => []
  | Stderr line :: rest => line :: stderr rest
  | _ :: rest => stderr rest
  end.

(** The calls into Blender, in order. *)
Fixpoint calls (t : list output) : list call :=
  match t with
  | [] => []
  | Called c :: rest => c :: calls rest
  | _ :: rest => calls rest
  end.

Definition is_import (c : call) : bool :=
  match c with
  | import_scene_obj _ | import_scene_fbx _ => true
  | _ => false
  end.

(** The import operators called, in order. *)
Definition imports (t : list output) : list call := filter is_import (calls t).

(** The files the script sets out to write: each export method starts by
    making the directory of its file. *)
Fixpoint written (t : list output) : list string :=
  match t with
  | [] => []
  | Called (mkdir_parent filepath) :: rest => filepath :: written rest
  | _ :: rest => written rest
  end.

(** The file and the format of each glTF export called. *)
Fixpoint gltf_exports (t : list output) : list (string * string) :=
  match t with
  | [] => []
  | Called (export_scene_gltf filepath export_format _) :: rest =>
      (filepath, export_format) :: gltf_exports rest
  | _ :: rest => gltf_exports rest
  end.

(** What a piece of the script leaves behind: nothing on standard output,
    the imports [X], the files [Y], and only glTF exports that are [good]. *)
Definition footprint (good : string * string -> Prop) (X : list call)
    (Y : list string) (t : list output) : Prop :=
  stdout t = [] /\ imports t = X /\ written t = Y /\
  Forall good (gltf_exports t).

(** The piece ends with a value. *)
Definition returns {H : Host} {A : Type} (m : Script H A)
    (P : list output -> Prop) : Prop :=
  forall s, exists s' t a, m s = (s', t, Ok a) /\ P t.

(** The piece ends with a value or raises; it does not exit. *)
Definition may_raise {H : Host} {A : Type} (m : Script H A)
    (P : list output -> Prop) : Prop :=
  forall s, exists s' t r,
    m s = (s', t, r) /\ P t /\ (forall n, r <> Exit n).

(** Sums and counts the statistics are compared with. *)
Definition sum (l : list Z) : Z := fold_right Z.add 0 l.

Definition is_mesh (obj : Object) : bool := String.eqb (type obj) "MESH".

(** The entry the loop appends for a mesh object. *)
Definition entry_of (obj : Object) : MeshEntry :=
  {| entry_name := name obj;
     entry_vertices := Z.of_nat (vertices (data obj));
     entry_faces := Z.of_nat (length (polygons (data obj)));
     entry_triangles := triangles (data obj) |}.

(** The corners of a scene: over its mesh objects, the number of vertices
    of every polygon, added up. *)
Definition corners (objects : list Object) : Z :=
  sum (map (fun obj => sum (map Z.of_nat (polygons (data obj))))
           (filter is_mesh objects)).

(** The formats [main] has an exporter for. *)
Definition known_format (fmt : string) : bool :=
  String.eqb fmt "obj" || String.eqb fmt "fbx" || String.eqb fmt "gltf"
  || String.eqb fmt "glb" || String.eqb fmt "dae".

(** The number of arguments a command reads, its own name included. *)
Definition arity (command : string) : nat :=
  if String.eqb command "import_export" then 3
  else if String.eqb command "cleanup" then 3
  else if String.eqb command "stats" then 2
  else 1.

(** The import [main] starts with, by the ending of the file name. *)
Definition import_for (input_file : string) : list call :=
  if endswith ".obj" input_file then [import_scene_obj input_file]
  else if endswith ".fbx" input_file then [import_scene_fbx input_file]
  else [].

(** *** A test double for Blender *)

(** [os.path.join(a, b)] of [posixpath]. *)
Definition posix_join (a b : string) : string :=
  if prefix "/" b then b
  else if String.eqb a "" || endswith "/" a then a ++ b
  else a ++ "/" ++ b.

(** The text before the first dot: enough of [Path(p).stem] for a plain
    file name with one dot. *)
Fixpoint before_dot (s : string) : string :=
  match s with
  | EmptyString => EmptyString
  | String c rest => if Ascii.eqb c "." then EmptyString
                     else String c (before_dot rest)
  end.

Definition quad : Object :=
  {| name := "Plane"; type := "MESH";
     data := {| vertices := 4; polygons := [4%nat] |} |}.

(** A Blender whose state is the list of the objects of the scene: deleting
    empties it, an import adds one quad, and the calls for which [raises]
    has a text raise it. *)
Definition mock_host (raises : call -> option string) : Host :=
  {| state := list Object;
     exec := fun c s =>
       match raises c with
       | Some e => (s, Some e)
       | None =>
           (match c with
            | object_delete => []
            | import_scene_obj _ | import_scene_fbx _ => (s ++ [quad])%list
            | _ => s
            end, None)
       end;
     scene_objects := fun s => s;
     selected_objects :=
       fun s => filter (fun o => String.eqb (type o) "MESH") s;
     stem := before_dot;
     path_join := posix_join |}.

(** A Blender in which every import and every export raises. *)
Definition failing_io (c : call) : option string :=
  match c with
  | import_scene_obj _ | import_scene_fbx _ => Some "file not found"
  | export_scene_obj _ _ | export_scene_fbx _ _ _ => Some "disk full"
  | _ => None
  end.

End Automation.

(** * Proofs *)

(** ** The decoder *)

(** A few documents, decoded by an interpreter with its default settings. *)
Example loads_object :
  json_loads default_limits
    ("{" ++ quoted "a" ++ ": [1, -2, 3.5e2], " ++ quoted "b"
       ++ ": null, " ++ quoted "a" ++ ": true}")
  = Decoded (JObject [("a", JBool true); ("b", JNull)]).
Proof. reflexivity. Qed.

Example loads_rejects_trailing_comma :
  json_loads default_limits "[1,]" = JSONDecodeError.
Proof. reflexivity. Qed.

Example loads_rejects_extra_data :
  json_loads default_limits "{} {}" = JSONDecodeError.
Proof. reflexivity. Qed.

Example loads_rejects_empty : json_loads default_limits "" = JSONDecodeError.
Proof. reflexivity. Qed.

(** An integer literal of 4300 digits is decoded, one of 4301 digits makes
    [int] raise [ValueError], also when text that is not JSON follows it; a
    fraction lifts the limit; a thousand open brackets are too many. *)
Example loads_long_integer :
  (exists z, json_loads default_limits (replicate 4300 "1") = Decoded (JInt z)) /\
  json_loads default_limits (replicate 4301 "1") = Raises (ValueError 4300 4301) /\
  json_loads default_limits (replicate 4301 "1" ++ " x")
  = Raises (ValueError 4300 4301) /\
  json_loads default_limits (replicate 4301 "1" ++ ".5")
  = Decoded (JFloat (replicate 4301 "1" ++ ".5")).
Proof.
  split; [eexists; vm_compute; reflexivity|].
  repeat split; vm_compute; reflexivity.
Qed.

Example loads_deep_nesting :
  json_loads default_limits (replicate 1000 "[") = Raises (RecursionError InArray) /\
  json_loads default_limits (replicate 10 "[") = JSONDecodeError.
Proof. split; vm_compute; reflexivity. Qed.

Example str_of_exceptions :
  str (ValueError 4300 4301)
  = "Exceeds the limit (4300 digits) for integer string conversion: value has 4301 digits; use sys.set_int_max_str_digits() to increase the limit".
Proof. reflexivity. Qed.

(** *** Fuel

    Every successful scan consumes input, so the depth of the calls is
    bounded by the length of the text. *)

Section Fuel.
Local Open Scope nat_scope.

Lemma skip_ws_length (s : string) : String.length (skip_ws s) <= String.length s.
Proof.
  induction s as [|c r IH]; simpl; [lia|].
  destruct (is_ws c); simpl; lia.
Qed.

Lemma expect_length (c : ascii) (s r : string) :
  expect c s = Some r -> String.length s = S (String.length r).
Proof.
  destruct s as [|c' s']; simpl; [discriminate|].
  destruct (Ascii.eqb c' c); [|discriminate]. intros [= ->]. reflexivity.
Qed.

Lemma strip_length (word s r : string) :
  strip word s = Some r -> String.length s = String.length word + String.length r.
Proof.
  revert s. induction word as [|a word IH]; intros s; simpl.
  - intros [= ->]. reflexivity.
  - destruct s as [|b s']; [discriminate|].
    destruct (Ascii.eqb a b); [|discriminate].
    intros H. apply IH in H. simpl. lia.
Qed.

Lemma take_digits_length (s : string) : String.length (snd (take_digits s)) <= String.length s.
Proof.
  induction s as [|c r IH]; simpl; [lia|].
  destruct (is_digit c); simpl; [|lia].
  destruct (take_digits r) as [ds rest]. simpl in *. lia.
Qed.

Lemma scan_sign_length (s : string) : String.length (snd (scan_sign s)) <= String.length s.
Proof.
  destruct s as [|c r]; simpl; [lia|].
  destruct (Ascii.eqb c "-"); simpl; lia.
Qed.

Lemma scan_int_length (s ds r : string) :
  scan_int s = Some (ds, r) -> String.length r < String.length s.
Proof.
  destruct s as [|c s']; simpl; [discriminate|].
  destruct (is_digit c); [|discriminate].
  destruct (Ascii.eqb c "0").
  - intros [= _ <-]. lia.
  - pose proof (take_digits_length s') as H.
    destruct (take_digits s') as [ds' rest]. intros [= _ <-]. simpl in H. lia.
Qed.

Lemma scan_frac_length (s : string) : String.length (snd (scan_frac s)) <= String.length s.
Proof.
  destruct s as [|c r]; simpl; [lia|].
  destruct (Ascii.eqb c "."); simpl; [|lia].
  pose proof (take_digits_length r) as H.
  destruct (take_digits r) as [fd rest]. simpl in H.
  destruct (String.eqb fd ""); simpl; lia.
Qed.

Lemma scan_exp_length (s : string) : String.length (snd (scan_exp s)) <= String.length s.
Proof.
  destruct s as [|e r]; simpl; [lia|].
  destruct (Ascii.eqb e "e" || Ascii.eqb e "E"); simpl; [|lia].
  destruct r as [|c x].
  - simpl. lia.
  - destruct (Ascii.eqb c "+" || Ascii.eqb c "-").
    + pose proof (take_digits_length x) as H.
      destruct (take_digits x) as [ed rest]. simpl in H.
      destruct (String.eqb ed ""); simpl; lia.
    + pose proof (take_digits_length (String c x)) as H.
      destruct (take_digits (String c x)) as [ed rest]. simpl in H.
      destruct (String.eqb ed ""); simpl; lia.
Qed.

Lemma scan_number_length (m : nat) (s : string) (v : json) (r : string) :
  scan_number m s = Scanned v r -> String.length r < String.length s.
Proof.
  unfold scan_number.
  pose proof (scan_sign_length s) as H1.
  destruct (scan_sign s) as [neg s1]. simpl in H1.
  destruct (scan_int s1) as [[ds s2]|] eqn:E2; [|discriminate].
  apply scan_int_length in E2.
  pose proof (scan_frac_length s2) as H3.
  destruct (scan_frac s2) as [frac s3]. simpl in H3.
  pose proof (scan_exp_length s3) as H4.
  destruct (scan_exp s3) as [expo s4]. simpl in H4.
  destruct (String.eqb frac "" && String.eqb expo "");
    [destruct (too_many_digits m (String.length ds)); [discriminate|]|];
    intros [= _ <-]; lia.
Qed.

Lemma scan_string_length (s : string) :
  forall st pending out str r,
    scan_string st pending out s = Some (str, r) -> String.length r < String.length s.
Proof.
  induction s as [|c s' IH]; intros st pending out str r; simpl;
    [discriminate|].
  assert (Hrec : forall st' p' o',
             scan_string st' p' o' s' = Some (str, r) -> String.length r < S (String.length s')).
  { intros st' p' o' H. apply IH in H. lia. }
  destruct st as [| |k acc].
  - destruct (Ascii.eqb c "034"); [intros [= _ <-]; lia|].
    destruct (Ascii.eqb c "\"); [apply Hrec|].
    destruct (code c <? 32)%N; [discriminate|apply Hrec].
  - destruct (Ascii.eqb c "u"); [apply Hrec|].
    destruct (simple_escape c); [apply Hrec|discriminate].
  - destruct (hex_value c) as [d|]; [|discriminate].
    destruct k as [|k']; [|apply Hrec].
    destruct pending as [h|].
    + destruct (is_low_surrogate (acc * 16 + d)); [apply Hrec|].
      destruct (is_high_surrogate (acc * 16 + d)); apply Hrec.
    + destruct (is_high_surrogate (acc * 16 + d)); apply Hrec.
Qed.

Lemma scan_constant_length (m : nat) (s : string) (v : json) (r : string) :
  scan_constant m s = Scanned v r -> String.length r < String.length s.
Proof.
  unfold scan_constant.
  repeat match goal with
         | |- context [strip ?w s] =>
             let E := fresh "E" in
             destruct (strip w s) eqn:E;
             [apply strip_length in E; simpl in E; intros [= _ <-]; lia|]
         | |- context [scan_number m s] =>
             let E := fresh "E" in
             destruct (scan_number m s) as [v' r'| |e] eqn:E;
             [apply scan_number_length in E; intros [= _ <-]; lia
             | |discriminate]
         end.
  discriminate.
Qed.

(** A successful scan consumes at least one character. *)
Lemma scan_length (m : nat) (f : nat) :
  (forall d s v r, scan_once f m d s = Scanned v r ->
                   String.length r < String.length s) /\
  (forall d s acc v r, scan_items f m d s acc = Scanned v r ->
                       String.length r < String.length s) /\
  (forall d s acc v r, scan_members f m d s acc = Scanned v r ->
                       String.length r < String.length s).
Proof.
  induction f as [|f (IHo & IHi & IHm)];
    [repeat split; intros; discriminate|].
  split; [|split].
  - intros d s v r. simpl. destruct s as [|c s']; [discriminate|].
    pose proof (skip_ws_length s') as Hws.
    destruct (Ascii.eqb c "034").
    { destruct (scan_string SPlain None [] s') as [[str rest]|] eqn:E;
        [|discriminate].
      apply scan_string_length in E. intros [= _ <-]. simpl. lia. }
    destruct (Ascii.eqb c "{").
    { destruct d as [|d]; [discriminate|].
      destruct (expect "}" (skip_ws s')) as [rest|] eqn:E.
      - apply expect_length in E. intros [= _ <-]. simpl. lia.
      - intros H. apply IHm in H. simpl. lia. }
    destruct (Ascii.eqb c "[").
    { destruct d as [|d]; [discriminate|].
      destruct (expect "]" (skip_ws s')) as [rest|] eqn:E.
      - apply expect_length in E. intros [= _ <-]. simpl. lia.
      - intros H. apply IHi in H. simpl. lia. }
    apply scan_constant_length.
  - intros d s acc v r. simpl.
    destruct (scan_once f m d s) as [v1 r1| |e] eqn:E1;
      [|discriminate|discriminate].
    apply IHo in E1. pose proof (skip_ws_length r1) as Hws.
    destruct (expect "]" (skip_ws r1)) as [rest|] eqn:E2.
    { apply expect_length in E2. intros [= _ <-]. lia. }
    destruct (expect "," (skip_ws r1)) as [rest|] eqn:E3; [|discriminate].
    apply expect_length in E3. pose proof (skip_ws_length rest) as Hws'.
    intros H. apply IHi in H. lia.
  - intros d s acc v r. simpl.
    destruct (expect "034" s) as [r0|] eqn:E0; [|discriminate].
    apply expect_length in E0.
    destruct (scan_string SPlain None [] r0) as [[key r1]|] eqn:E1;
      [|discriminate].
    apply scan_string_length in E1. pose proof (skip_ws_length r1) as Hws1.
    destruct (expect ":" (skip_ws r1)) as [r2|] eqn:E2; [|discriminate].
    apply expect_length in E2. pose proof (skip_ws_length r2) as Hws2.
    destruct (scan_once f m d (skip_ws r2)) as [v3 r3| |e] eqn:E3;
      [|discriminate|discriminate].
    apply IHo in E3. pose proof (skip_ws_length r3) as Hws3.
    destruct (expect "}" (skip_ws r3)) as [rest|] eqn:E4.
    { apply expect_length in E4. intros [= _ <-]. lia. }
    destruct (expect "," (skip_ws r3)) as [rest|] eqn:E5; [|discriminate].
    apply expect_length in E5. pose proof (skip_ws_length rest) as Hws'.
    intros H. apply IHm in H. lia.
Qed.

(** The three scanners, one step unfolded. *)
Lemma scan_once_S (f m d : nat) (c : ascii) (r : string) :
  scan_once (S f) m d (String c r)
  = if Ascii.eqb c "034" then
      match scan_string SPlain None [] r with
      | Some (str, rest) => Scanned (JString str) rest
      | None => Malformed
      end
    else if Ascii.eqb c "{" then
      match d with
      | O => Raise (RecursionError InObject)
      | S d' =>
          match expect "}" (skip_ws r) with
          | Some rest => Scanned (JObject []) rest
          | None => scan_members f m d' (skip_ws r) []
          end
      end
    else if Ascii.eqb c "[" then
      match d with
      | O => Raise (RecursionError InArray)
      | S d' =>
          match expect "]" (skip_ws r) with
          | Some rest => Scanned (JArray []) rest
          | None => scan_items f m d' (skip_ws r) []
          end
      end
    else scan_constant m (String c r).
Proof. reflexivity. Qed.

Lemma scan_items_S (f m d : nat) (s : string) (acc : list json) :
  scan_items (S f) m d s acc
  = match scan_once f m d s with
    | Malformed => Malformed
    | Raise e => Raise e
    | Scanned v r =>
        match expect "]" (skip_ws r) with
        | Some rest => Scanned (JArray (rev (v :: acc))) rest
        | None =>
            match expect "," (skip_ws r) with
            | Some rest => scan_items f m d (skip_ws rest) (v :: acc)
            | None => Malformed
            end
        end
    end.
Proof. reflexivity. Qed.

Lemma scan_members_S (f m d : nat) (s : string) (acc : list (string * json)) :
  scan_members (S f) m d s acc
  = match expect "034" s with
    | None => Malformed
    | Some r =>
        match scan_string SPlain None [] r with
        | None => Malformed
        | Some (key, r1) =>
            match expect ":" (skip_ws r1) with
            | None => Malformed
            | Some r2 =>
                match scan_once f m d (skip_ws r2) with
                | Malformed => Malformed
                | Raise e => Raise e
                | Scanned v r3 =>
                    match expect "}" (skip_ws r3) with
                    | Some rest => Scanned (JObject (assoc_set key v acc)) rest
                    | None =>
                        match expect "," (skip_ws r3) with
                        | Some rest =>
                            scan_members f m d (skip_ws rest)
                              (assoc_set key v acc)
                        | None => Malformed
                        end
                    end
                end
            end
        end
    end.
Proof. reflexivity. Qed.

(** One more unit of fuel changes nothing once the fuel exceeds twice the
    length of the input. *)
Lemma scan_stable (m : nat) (f : nat) :
  (forall d s, 2 * String.length s + 1 <= f ->
               scan_once (S f) m d s = scan_once f m d s) /\
  (forall d s acc, 2 * String.length s + 2 <= f ->
                   scan_items (S f) m d s acc = scan_items f m d s acc) /\
  (forall d s acc, 2 * String.length s + 2 <= f ->
                   scan_members (S f) m d s acc = scan_members f m d s acc).
Proof.
  induction f as [|f (IHo & IHi & IHm)]; [repeat split; intros; lia|].
  split; [|split].
  - intros d s Hf. destruct s as [|c s']; [reflexivity|].
    pose proof (skip_ws_length s') as Hws. simpl in Hf.
    rewrite (scan_once_S (S f)), (scan_once_S f).
    destruct d as [|d]; [reflexivity|].
    rewrite IHm, IHi by lia. reflexivity.
  - intros d s acc Hf.
    rewrite (scan_items_S (S f)), (scan_items_S f).
    rewrite IHo by lia.
    destruct (scan_once f m d s) as [v r| |e] eqn:E;
      [|reflexivity|reflexivity].
    apply (proj1 (scan_length m f)) in E. pose proof (skip_ws_length r) as Hws.
    destruct (expect "]" (skip_ws r)); [reflexivity|].
    destruct (expect "," (skip_ws r)) as [rest|] eqn:E'; [|reflexivity].
    apply expect_length in E'. pose proof (skip_ws_length rest) as Hws'.
    apply IHi. lia.
  - intros d s acc Hf.
    rewrite (scan_members_S (S f)), (scan_members_S f).
    destruct (expect "034" s) as [r0|] eqn:E0; [|reflexivity].
    apply expect_length in E0.
    destruct (scan_string SPlain None [] r0) as [[key r1]|] eqn:E1;
      [|reflexivity].
    apply scan_string_length in E1. pose proof (skip_ws_length r1) as Hws1.
    destruct (expect ":" (skip_ws r1)) as [r2|] eqn:E2; [|reflexivity].
    apply expect_length in E2. pose proof (skip_ws_length r2) as Hws2.
    rewrite IHo by lia.
    destruct (scan_once f m d (skip_ws r2)) as [v3 r3| |e] eqn:E3;
      [|reflexivity|reflexivity].
    apply (proj1 (scan_length m f)) in E3. pose proof (skip_ws_length r3) as Hws3.
    destruct (expect "}" (skip_ws r3)); [reflexivity|].
    destruct (expect "," (skip_ws r3)) as [rest|] eqn:E5; [|reflexivity].
    apply expect_length in E5. pose proof (skip_ws_length rest) as Hws'.
    apply IHm. lia.
Qed.

(** Any fuel from twice the length plus one on gives the same scan. *)
Lemma scan_once_fuel (m d : nat) (s : string) (f : nat) :
  2 * String.length s + 1 <= f ->
  scan_once f m d s = scan_once (2 * String.length s + 1) m d s.
Proof.
  intros H. induction H as [|f H IH]; [reflexivity|].
  rewrite <- IH. apply (proj1 (scan_stable m f)). exact H.
Qed.

(** The fuel [json_loads] gives is enough: more fuel would decode every
    text to the same answer. *)
Lemma json_loads_fuel (m d : nat) (s : string) (f : nat) :
  2 * String.length s + 2 <= f ->
  scan_once f m d (skip_ws s)
  = scan_once (2 * String.length s + 2) m d (skip_ws s).
Proof.
  intros H. pose proof (skip_ws_length s) as Hws.
  rewrite (scan_once_fuel m d (skip_ws s) f) by lia.
  rewrite (scan_once_fuel m d (skip_ws s) (2 * String.length s + 2)) by lia.
  reflexivity.
Qed.

End Fuel.

(** ** The dispatcher, step by step *)

Lemma printed_app (t u : list event) :
  printed (t ++ u) = (printed t ++ printed u)%list.
Proof.
  induction t as [|e t IH]; simpl; [reflexivity|].
  destruct e; simpl; rewrite IH; reflexivity.
Qed.

Lemma spawned_app (t u : list event) :
  spawned (t ++ u) = (spawned t ++ spawned u)%list.
Proof.
  induction t as [|e t IH]; simpl; [reflexivity|].
  destruct e; simpl; rewrite IH; reflexivity.
Qed.

Lemma printed_probes (ps : list string) : printed (map Probe ps) = [].
Proof. induction ps; simpl; auto. Qed.

Lemma spawned_probes (ps : list string) : spawned (map Probe ps) = [].
Proof. induction ps; simpl; auto. Qed.

Lemma find_blender_eq (w : World) (paths : list string) :
  find_blender w paths = (map Probe (probed w paths), search w paths).
Proof.
  induction paths as [|p rest IH]; simpl; [reflexivity|].
  unfold bind, emit, raise. destruct (path_exists w p) as [[|]|msg]; simpl.
  - reflexivity.
  - rewrite IH. reflexivity.
  - reflexivity.
Qed.

(** The search ends with a candidate, with none, or in an exception. *)
Lemma search_cases (w : World) (paths : list string) :
  (exists r, search w paths = Returns r) \/
  (exists p msg, In p (probed w paths) /\ path_exists w p = OSError msg /\
                 search w paths = Uncaught msg).
Proof.
  induction paths as [|p rest IH]; simpl; [left; eexists; reflexivity|].
  destruct (path_exists w p) as [[|]|msg] eqn:E.
  - left. eexists. reflexivity.
  - destruct IH as [IH|(q & msg & Hin & Hq & Hs)]; [left; exact IH|].
    right. exists q, msg. repeat split; [right; exact Hin|exact Hq|exact Hs].
  - right. exists p, msg. repeat split; [left; reflexivity|exact E].
Qed.

Lemma search_answers (w : World) (paths : list string) :
  (forall p, In p (probed w paths) -> exists b, path_exists w p = Answers b) ->
  exists r, search w paths = Returns r.
Proof.
  intros H. destruct (search_cases w paths) as [Hr|(p & msg & Hin & Hp & _)];
    [exact Hr|].
  destruct (H p Hin) as [b Hb]. rewrite Hb in Hp. discriminate.
Qed.

Lemma probed_incl (w : World) (paths : list string) (p : string) :
  In p (probed w paths) -> In p paths.
Proof.
  induction paths as [|q rest IH]; simpl; [tauto|].
  intros [H|H]; [left; exact H|].
  destruct (path_exists w q) as [[|]|msg]; simpl in H; try contradiction.
  right. exact (IH H).
Qed.

(** The whole of a dispatcher call: its trace and how it ends. *)
Lemma run_blender_script_eq (w : World) (script_name : string)
    (args : list string) :
  run_blender_script w script_name args
  = match search w blender_paths with
    | Returns None =>
        (Dispatch script_name args :: map Probe (probed w blender_paths),
         Returns (failure not_found_message))
    | Returns (Some exe) =>
        let cmd := command_line w exe script_name args in
        (Dispatch script_name args
           :: map Probe (probed w blender_paths) ++ [Spawn cmd timeout],
         Returns (classify (limits w) (await (child w cmd))))
    | SystemExit n =>
        (Dispatch script_name args :: map Probe (probed w blender_paths),
         SystemExit n)
    | Uncaught msg =>
        (Dispatch script_name args :: map Probe (probed w blender_paths),
         Uncaught msg)
    end.
Proof.
  unfold run_blender_script, subprocess_run.
  rewrite find_blender_eq.
  destruct (search w blender_paths) as [[exe|]|n|msg];
    unfold bind, emit, ret; cbn [app fst snd]; cbv zeta;
    try reflexivity.
  - unfold classify, await, failure.
    destruct (child w (command_line w exe script_name args))
      as [msg|elapsed rc out err|]; [reflexivity| |reflexivity].
    destruct (Qle_bool elapsed timeout); [|reflexivity].
    destruct (json_loads (limits w) out); reflexivity.
  - rewrite app_nil_r. reflexivity.
Qed.

Lemma resolve_search (w : World) (exe : string) :
  resolve w = Some exe -> search w blender_paths = Returns (Some exe).
Proof.
  unfold resolve.
  destruct (search w blender_paths) as [[exe'|]|n|msg]; try discriminate.
  intros [= ->]. reflexivity.
Qed.

Lemma search_none (w : World) (paths : list string) :
  (forall p, In p paths -> path_exists w p = Answers false) ->
  search w paths = Returns None /\ probed w paths = paths.
Proof.
  induction paths as [|p rest IH]; intros H; simpl; [split; reflexivity|].
  rewrite (H p (or_introl eq_refl)).
  destruct IH as [IH1 IH2]; [intros q Hq; apply H; right; exact Hq|].
  rewrite IH1, IH2. split; reflexivity.
Qed.

(** ** The dispatcher: properties *)

Lemma await_completes (c : Child) (rc : Z) (out err : string) :
  completes c rc out err -> await c = CompletedProcess rc out err.
Proof.
  intros [elapsed [-> Hle]]. unfold await.
  apply Qle_bool_iff in Hle. rewrite Hle. reflexivity.
Qed.

Lemma await_exceeds (c : Child) :
  exceeds_timeout c -> await c = TimeoutExpired.
Proof.
  destruct c as [msg|elapsed rc out err|]; simpl; intros H.
  - contradiction.
  - destruct (Qle_bool elapsed timeout) eqn:E; [|reflexivity].
    apply Qle_bool_iff in E. exfalso. exact (Qlt_not_le _ _ H E).
  - reflexivity.
Qed.

Lemma returned_run_blender_script (w : World) (script_name : string)
    (args : list string) (exe : string) :
  resolve w = Some exe ->
  returned (run_blender_script w script_name args)
  = Some (classify (limits w)
            (await (child w (command_line w exe script_name args)))).
Proof.
  intros H. rewrite run_blender_script_eq, (resolve_search w exe H).
  reflexivity.
Qed.

(** C4.  When the child starts and completes and its standard output decodes
    as JSON, the dispatcher returns [success] equal to (exit code = 0),
    [data] equal to the decoded value and the captured [stderr]; with exit
    code 0 and the output [{"mesh_count": 2, "total_vertices": 10}] this is
    [success = True] with that object as [data]. *)
Theorem completed_json_output_is_data :
  (forall (w : World) (script_name : string) (args : list string)
          (exe : string) (rc : Z) (out err : string) (v : json),
      resolve w = Some exe ->
      completes (child w (command_line w exe script_name args)) rc out err ->
      json_loads (limits w) out = Decoded v ->
      returned (run_blender_script w script_name args)
      = Some (JObject [("success", JBool (rc =? 0)); ("data", v);
                       ("stderr", JString err)]))
  /\
  (forall (script_name : string) (args : list string) (err : string),
      returned
        (run_blender_script
           (subprocess_mock 0 mesh_stats_stdout err)
           script_name args)
      = Some (JObject
                [("success", JBool true);
                 ("data", JObject [("mesh_count", JInt 2);
                                   ("total_vertices", JInt 10)]);
                 ("stderr", JString err)])).
Proof.
  split.
  - intros w script_name args exe rc out err v Hexe Hrun Hjson.
    rewrite (returned_run_blender_script _ _ _ _ Hexe).
    rewrite (await_completes _ _ _ _ Hrun). simpl. rewrite Hjson. reflexivity.
  - intros script_name args err.
    rewrite (returned_run_blender_script _ _ _ "/usr/bin/blender");
      reflexivity.
Qed.

Lemma completed_json_output_is_data_witness :
  let w := subprocess_mock 3 "[1, 2]" "warning" in
  resolve w = Some "/usr/bin/blender" /\
  json_loads (limits w) "[1, 2]" = Decoded (JArray [JInt 1; JInt 2]) /\
  returned (run_blender_script w "automation.py" ["stats"; "model.obj"])
  = Some (JObject [("success", JBool false);
                   ("data", JArray [JInt 1; JInt 2]);
                   ("stderr", JString "warning")]).
Proof.
  split; [reflexivity|]. split; [reflexivity|].
  apply (proj1 completed_json_output_is_data
           (subprocess_mock 3 "[1, 2]" "warning") "automation.py"
           ["stats"; "model.obj"] "/usr/bin/blender" 3 "[1, 2]" "warning"
           (JArray [JInt 1; JInt 2])).
  - reflexivity.
  - exists (1 # 1). split; [reflexivity|]. unfold timeout, Qle; simpl; lia.
  - reflexivity.
Defined.




(** C6.  When no candidate path exists, the dispatcher returns, whatever the
    script name and the arguments, [success = False] with an error that
    mentions "not found", after the probes alone: nothing is spawned. *)
Theorem no_candidate_exists_not_found (w : World) (script_name : string)
    (args : list string) :
  (forall p, In p blender_paths -> path_exists w p = Answers false) ->
  exists msg,
    run_blender_script w script_name args
    = (Dispatch script_name args :: map Probe blender_paths,
       Returns (JObject [("success", JBool false); ("error", JString msg)]))
    /\ contains "not found" msg = true
    /\ spawned (trace (run_blender_script w script_name args)) = [].
Proof.
  intros Hnone. exists not_found_message.
  destruct (search_none w blender_paths Hnone) as [Hsearch Hprobed].
  rewrite run_blender_script_eq, Hsearch, Hprobed.
  repeat split.
Qed.

Lemma no_candidate_exists_not_found_witness :
  let w := mock_world ["/opt/blender/blender"] [] Hangs in
  (forall p, In p blender_paths -> path_exists w p = Answers false) /\
  exists msg,
    run_blender_script w "automation.py" ["stats"; "model.obj"]
    = (Dispatch "automation.py" ["stats"; "model.obj"]
         :: map Probe blender_paths,
       Returns (JObject [("success", JBool false); ("error", JString msg)]))
    /\ contains "not found" msg = true
    /\ spawned (trace (run_blender_script w "automation.py"
                         ["stats"; "model.obj"])) = [].
Proof.
  assert (H : forall p, In p blender_paths ->
                path_exists (mock_world ["/opt/blender/blender"] [] Hangs) p
                = Answers false).
  { intros p Hin. simpl in Hin.
    decompose [or] Hin; subst; try reflexivity; contradiction. }
  split; [exact H|].
  exact (no_candidate_exists_not_found
           (mock_world ["/opt/blender/blender"] [] Hangs)
           "automation.py" ["stats"; "model.obj"] H).
Defined.

(** C7.  When the child is still running after the 300 seconds of the
    timeout, the dispatcher returns [success = False] with the error
    "Blender operation timed out (5 minutes)", and the result has no
    [stdout], [stderr] or [data]. *)
Theorem timeout_exceeded_is_error (w : World) (script_name : string)
    (args : list string) (exe : string) :
  resolve w = Some exe ->
  exceeds_timeout (child w (command_line w exe script_name args)) ->
  timeout == 300 # 1 /\
  exists r msg,
    returned (run_blender_script w script_name args) = Some r /\
    r = JObject [("success", JBool false); ("error", JString msg)] /\
    msg = "Blender operation timed out (5 minutes)" /\
    contains "timed out" msg = true /\
    has_key "stdout" r = false /\
    has_key "stderr" r = false /\
    has_key "data" r = false.
Proof.
  intros Hexe Hslow. split; [reflexivity|].
  rewrite (returned_run_blender_script _ _ _ _ Hexe).
  rewrite (await_exceeds _ Hslow).
  exists (failure timeout_message), timeout_message. repeat split.
Qed.

Lemma timeout_exceeded_is_error_witness :
  let w := mock_world ["/usr/local/bin/blender"] []
             (Exits (301 # 1) 0 "[true]" "late") in
  resolve w = Some "/usr/local/bin/blender" /\
  exceeds_timeout
    (child w (command_line w "/usr/local/bin/blender" "automation.py"
                ["stats"; "model.obj"])) /\
  exists r msg,
    returned (run_blender_script w "automation.py" ["stats"; "model.obj"])
    = Some r /\
    r = JObject [("success", JBool false); ("error", JString msg)] /\
    msg = "Blender operation timed out (5 minutes)" /\
    contains "timed out" msg = true /\
    has_key "stdout" r = false /\
    has_key "stderr" r = false /\
    has_key "data" r = false.
Proof.
  assert (Hslow : (timeout < 301 # 1)%Q) by (unfold timeout, Qlt; simpl; lia).
  split; [reflexivity|]. split; [exact Hslow|].
  exact (proj2 (timeout_exceeded_is_error
                  (mock_world ["/usr/local/bin/blender"] []
                     (Exits (301 # 1) 0 "[true]" "late"))
                  "automation.py" ["stats"; "model.obj"]
                  "/usr/local/bin/blender" eq_refl Hslow)).
Defined.

(** The dispatcher never reads the environment: two machines that differ in
    it alone get the same run. *)
Lemma run_blender_script_ignores_environ (w : World)
    (env : string -> option string) (script_name : string)
    (args : list string) :
  run_blender_script
    {| path_exists := path_exists w; environ := env;
       script_path := script_path w; child := child w;
       limits := limits w |} script_name args
  = run_blender_script w script_name args.
Proof. reflexivity. Qed.

(** C2.  A machine whose only Blender is at [/opt/blender/blender], with
    [BLENDER_PATH] set to that path: the dispatcher probes the four built-in
    candidates, never the variable's path, and reports that Blender was not
    found, in a message that tells the user to set [BLENDER_PATH]. *)
Theorem BLENDER_PATH_is_not_probed :
  let w := mock_world ["/opt/blender/blender"]
             [("BLENDER_PATH", "/opt/blender/blender")]
             (Exits (1 # 1) 0 "{}" "") in
  environ w "BLENDER_PATH" = Some "/opt/blender/blender" /\
  path_exists w "/opt/blender/blender" = Answers true /\
  run_blender_script w "automation.py" ["stats"; "model.obj"]
  = ([Dispatch "automation.py" ["stats"; "model.obj"];
      Probe "/usr/bin/blender";
      Probe "/usr/local/bin/blender";
      Probe "/Applications/Blender.app/Contents/MacOS/Blender";
      Probe "C:\Program Files\Blender Foundation\Blender\blender.exe"],
     Returns (JObject [("success", JBool false);
                       ("error", JString not_found_message)])) /\
  contains "set BLENDER_PATH environment variable" not_found_message = true.
Proof. repeat split. Qed.

(** ** The router, step by step *)

(** A dispatcher call returns a result, or ends in the [OSError] of a probe
    before anything is started. *)
Lemma run_blender_script_ends (w : World) (script_name : string)
    (args : list string) :
  (exists t r, run_blender_script w script_name args = (t, Returns r)) \/
  (exists p msg,
      In p (probed w blender_paths) /\ path_exists w p = OSError msg /\
      run_blender_script w script_name args
      = (Dispatch script_name args :: map Probe (probed w blender_paths),
         Uncaught msg)).
Proof.
  rewrite run_blender_script_eq.
  destruct (search_cases w blender_paths)
    as [[r Hr]|(p & msg & Hin & Hp & Hs)]; rewrite ?Hr, ?Hs.
  - left. destruct r as [exe|]; eexists; eexists; reflexivity.
  - right. exists p, msg.
    split; [exact Hin|]. split; [exact Hp|reflexivity].
Qed.

Lemma run_blender_script_returns (w : World) (script_name : string)
    (args : list string) :
  probes_answer w ->
  exists t r, run_blender_script w script_name args = (t, Returns r).
Proof.
  intros H. rewrite run_blender_script_eq.
  destruct (search_answers w blender_paths H) as [r ->].
  destruct r as [exe|]; eexists; eexists; reflexivity.
Qed.

#[local] Hint Constructors main_run : core.

Lemma main_dispatch_step (w : World) (a : list string) (t : list event)
    (r : json) :
  run_blender_script w "automation.py" a = (t, Returns r) ->
  bind (bind (ret tt) (fun _ => run_blender_script w "automation.py" a))
       (fun result =>
          bind (print result) (fun _ => sys_exit (exit_code result)))
  = ((t ++ [Print r])%list, SystemExit (exit_code r) : outcome unit).
Proof.
  intros E. unfold bind at 2. unfold ret. rewrite E. reflexivity.
Qed.

Lemma main_dispatch_raise (w : World) (a : list string) (t : list event)
    (msg : string) :
  run_blender_script w "automation.py" a = (t, Uncaught msg) ->
  bind (bind (ret tt) (fun _ => run_blender_script w "automation.py" a))
       (fun result =>
          bind (print result) (fun _ => sys_exit (exit_code result)))
  = (t, Uncaught msg : outcome unit).
Proof.
  intros E. unfold bind at 2. unfold ret. rewrite E. reflexivity.
Qed.

Ltac dispatch_case w a :=
  let t := fresh "t" in
  let r := fresh "r" in
  let E := fresh "E" in
  let p := fresh "p" in
  let msg := fresh "msg" in
  let Hin := fresh "Hin" in
  let Hp := fresh "Hp" in
  destruct (run_blender_script_ends w "automation.py" a)
    as [(t & r & E)|(p & msg & Hin & Hp & E)];
  [ left; exists t, r; split; [exact (main_dispatch_step w a t r E) | eauto]
  | right; exists a, p, msg; split; [exact Hin|]; split; [exact Hp|];
    exact (main_dispatch_raise w a _ msg E) ].

Lemma main_shape (w : World) (args : Namespace) :
  (exists t r,
      main w args = ((t ++ [Print r])%list, SystemExit (exit_code r)) /\
      main_run w args t r) \/
  cut_short w args.
Proof.
  unfold cut_short, main. fold exit_code.
  destruct (String.eqb (command args) "import_export").
  { destruct (py_not (input args) || py_not (output args)).
    - left. exists [], (failure "Missing --input or --output"). split; auto.
    - dispatch_case w ["import_export"; value (input args);
                       value (output args); py_or (formats args) "obj,fbx"]. }
  destruct (String.eqb (command args) "cleanup").
  { destruct (py_not (input args) || py_not (output args)).
    - left. exists [], (failure "Missing --input or --output"). split; auto.
    - dispatch_case w ["cleanup"; value (input args); value (output args)]. }
  destruct (String.eqb (command args) "stats").
  { destruct (py_not (input args)).
    - left. exists [], (failure "Missing --input"). split; auto.
    - dispatch_case w ["stats"; value (input args)]. }
  left.
  destruct (String.eqb (command args) "optimize").
  { destruct (py_not (input args) || py_not (output args)
              || py_not (platform args)).
    - exists [], (failure "Missing --input, --output, or --platform").
      split; auto.
    - exists [], (placeholder "Optimization script to be implemented").
      split; auto. }
  destruct (String.eqb (command args) "generate_lods").
  { destruct (py_not (input args) || py_not (output args)).
    - exists [], (failure "Missing --input or --output"). split; auto.
    - exists [], (placeholder "LOD generation script to be implemented").
      split; auto. }
  destruct (String.eqb (command args) "bake_textures").
  { destruct (py_not (input args) || py_not (output args)).
    - exists [], (failure "Missing --input or --output"). split; auto.
    - exists [], (placeholder "Texture baking script to be implemented").
      split; auto. }
  exists [], (failure ("Unknown command: " ++ command args)). split; auto.
Qed.

(** Either the command has a script and its options are there, or [main]
    only prints. *)
Lemma main_cases (w : World) (args : Namespace) :
  (In (command args) script_commands /\ lacks_required args = false) \/
  (exists r, main w args = ([Print r], SystemExit (exit_code r))).
Proof.
  unfold script_commands, lacks_required, required_options.
  unfold main.
  destruct (String.eqb_spec (command args) "import_export") as [E|_].
  { rewrite E. cbn [String.eqb Ascii.eqb Bool.eqb existsb given In].
    rewrite orb_false_r.
    destruct (py_not (input args) || py_not (output args));
      [right; exists (failure "Missing --input or --output"); reflexivity
      |left; tauto]. }
  destruct (String.eqb_spec (command args) "cleanup") as [E|_].
  { rewrite E. cbn [String.eqb Ascii.eqb Bool.eqb existsb given In].
    rewrite orb_false_r.
    destruct (py_not (input args) || py_not (output args));
      [right; exists (failure "Missing --input or --output"); reflexivity
      |left; tauto]. }
  destruct (String.eqb_spec (command args) "stats") as [E|_].
  { rewrite E. cbn [String.eqb Ascii.eqb Bool.eqb existsb given In].
    rewrite orb_false_r.
    destruct (py_not (input args));
      [right; exists (failure "Missing --input"); reflexivity
      |left; tauto]. }
  right.
  destruct (String.eqb (command args) "optimize").
  { destruct (py_not (input args) || py_not (output args)
              || py_not (platform args)).
    - exists (failure "Missing --input, --output, or --platform").
      reflexivity.
    - exists (placeholder "Optimization script to be implemented").
      reflexivity. }
  destruct (String.eqb (command args) "generate_lods").
  { destruct (py_not (input args) || py_not (output args)).
    - exists (failure "Missing --input or --output"). reflexivity.
    - exists (placeholder "LOD generation script to be implemented").
      reflexivity. }
  destruct (String.eqb (command args) "bake_textures").
  { destruct (py_not (input args) || py_not (output args)).
    - exists (failure "Missing --input or --output"). reflexivity.
    - exists (placeholder "Texture baking script to be implemented").
      reflexivity. }
  exists (failure ("Unknown command: " ++ command args)). reflexivity.
Qed.

(** With answers to all its probes, a run is not cut short. *)
Lemma answered_not_cut_short (w : World) (args : Namespace) :
  probes_answer w -> ~ cut_short w args.
Proof.
  intros Hans (a & p & msg & Hin & Hp & _).
  destruct (Hans p Hin) as [b Hb]. rewrite Hb in Hp. discriminate.
Qed.

(** ** Results: shape and invariant *)

Lemma classify_is_result (lim : Limits) (o : CompletedOrRaised) :
  is_result (classify lim o).
Proof.
  destruct o as [rc out err| |msg]; simpl.
  - destruct (json_loads lim out); eexists; eexists; split; reflexivity.
  - eexists; eexists; split; reflexivity.
  - eexists; eexists; split; reflexivity.
Qed.

Lemma classify_error_is_failure (lim : Limits) (o : CompletedOrRaised) :
  has_key "error" (classify lim o) = true ->
  dict_get "success" (classify lim o) = Some (JBool false).
Proof.
  destruct o as [rc out err| |msg]; simpl; try reflexivity.
  destruct (json_loads lim out); cbn; try discriminate; reflexivity.
Qed.

Lemma classify_nonzero_is_failure (lim : Limits) (elapsed : Q) (rc : Z)
    (out err : string) :
  rc <> 0 ->
  dict_get "success" (classify lim (await (Exits elapsed rc out err)))
  = Some (JBool false).
Proof.
  intros Hrc. apply Z.eqb_neq in Hrc. unfold await.
  destruct (Qle_bool elapsed timeout); simpl; [|reflexivity].
  destruct (json_loads lim out); cbn; rewrite ?Hrc; reflexivity.
Qed.

Lemma spawn_in_probes (cmd : list string) (tm : Q) (ps : list string) :
  ~ In (Spawn cmd tm) (map Probe ps).
Proof.
  intros H. apply in_map_iff in H. destruct H as [p [Hp _]]. discriminate.
Qed.

Lemma dispatcher_result (w : World) (script_name : string) (args : list string)
    (t : list event) (r : json) :
  run_blender_script w script_name args = (t, Returns r) ->
  printed t = [] /\ is_result r /\ failure_is_reported w t r.
Proof.
  rewrite run_blender_script_eq.
  generalize (probed w blender_paths). intros ps.
  destruct (search w blender_paths) as [[exe|]|n|msg]; cbv zeta;
    [| |discriminate|discriminate]; intros [= <- <-].
  - split; [|split; [|split]].
    + cbn [printed]. rewrite printed_app, printed_probes. reflexivity.
    + apply classify_is_result.
    + apply classify_error_is_failure.
    + intros cmd tm elapsed rc out err Hin Hchild Hrc.
      destruct Hin as [Hin|Hin]; [discriminate|].
      apply in_app_or in Hin. destruct Hin as [Hin|Hin].
      * exfalso. exact (spawn_in_probes _ _ _ Hin).
      * destruct Hin as [Hin|[]]. inversion Hin; subst.
        rewrite Hchild. apply classify_nonzero_is_failure. exact Hrc.
  - split; [|split; [|split]].
    + cbn [printed]. apply printed_probes.
    + eexists; eexists; split; reflexivity.
    + reflexivity.
    + intros cmd tm elapsed rc out err Hin. exfalso.
      destruct Hin as [Hin|Hin]; [discriminate|].
      exact (spawn_in_probes _ _ _ Hin).
Qed.

Lemma main_run_result (w : World) (args : Namespace) (t : list event)
    (r : json) :
  main_run w args t r ->
  printed t = [] /\ is_result r /\ failure_is_reported w t r.
Proof.
  intros H. destruct H as [msg _|msg| |a t r E];
    [| | |exact (dispatcher_result w _ _ t r E)];
    (split; [reflexivity|split]);
    try (eexists; eexists; split; reflexivity);
    (split; [cbn; try discriminate; reflexivity | intros ? ? ? ? ? ? []]).
Qed.

Lemma exit_code_of_success (r : json) (b : bool) :
  dict_get "success" r = Some (JBool b) ->
  exit_code r = if b then 0 else 1.
Proof. unfold exit_code, get_truthy. intros ->. reflexivity. Qed.







(** ** The router: required options *)

Ltac enter_main H :=
  unfold main; rewrite H; cbn [String.eqb Ascii.eqb Bool.eqb].

(** The guard of a known command is exactly the table: when a required
    option is missing or empty, [main] prints the rejection and exits 1, and
    that is all it does. *)
Lemma main_rejects (w : World) (args : Namespace) :
  In (command args) known_commands ->
  lacks_required args = true ->
  main w args
  = ([Print (failure (missing_message (command args)))], SystemExit 1).
Proof.
  unfold lacks_required, known_commands, missing_message, required_options.
  intros Hcmd. cbn [In] in Hcmd.
  decompose [or] Hcmd; clear Hcmd;
    match goal with
    | H : _ = command args |- _ => symmetry in H; enter_main H
    | H : False |- _ => destruct H
    end;
    cbn [existsb given]; rewrite ?orb_false_r, ?orb_assoc; intros ->;
    reflexivity.
Qed.

Lemma missing_message_mentions (cmd : string) (o : option_name) :
  In cmd known_commands ->
  In o (required_options cmd) ->
  startswith "Missing --" (missing_message cmd) = true /\
  contains (flag o) (missing_message cmd) = true.
Proof.
  unfold known_commands. intros Hcmd Ho. cbn [In] in Hcmd.
  decompose [or] Hcmd; clear Hcmd; try contradiction; subst cmd;
    cbn in Ho; decompose [or] Ho; clear Ho; try contradiction; subst o;
    split; reflexivity.
Qed.

Lemma missing_option_lacks (args : Namespace) (o : option_name) :
  In o (required_options (command args)) ->
  given args o = None ->
  lacks_required args = true.
Proof.
  intros Hin Hnone. unfold lacks_required. apply existsb_exists.
  exists o. split; [exact Hin|]. rewrite Hnone. reflexivity.
Qed.

(** C3.  For [import_export], [cleanup] (which require input and output) and
    [stats] (which requires input): when a required option is absent, [main]
    prints [success = False] with the error of the command ("Missing --input"
    for [stats], "Missing --input or --output" for the other two), which
    starts "Missing --" and names the absent option; it exits 1, and neither
    calls the dispatcher nor spawns anything. *)
Theorem missing_required_option_is_rejected (w : World) (args : Namespace)
    (o : option_name) :
  In (command args) ["import_export"; "cleanup"; "stats"] ->
  In o (required_options (command args)) ->
  given args o = None ->
  exists msg,
    main w args
    = ([Print (JObject [("success", JBool false); ("error", JString msg)])],
       SystemExit 1) /\
    msg = missing_message (command args) /\
    startswith "Missing --" msg = true /\
    contains (flag o) msg = true /\
    dispatched (trace (main w args)) = [] /\
    spawned (trace (main w args)) = [].
Proof.
  intros Hcmd Ho Hnone.
  assert (Hknown : In (command args) known_commands).
  { unfold known_commands. cbn [In] in *. tauto. }
  exists (missing_message (command args)).
  rewrite (main_rejects w args Hknown (missing_option_lacks args o Ho Hnone)).
  destruct (missing_message_mentions _ o Hknown Ho) as [Hpre Hflag].
  repeat split; assumption.
Qed.

Lemma missing_required_option_is_rejected_witness :
  let w := subprocess_mock 0 "{}" "" in
  let args := request "import_export" (Some "avatar.fbx") None None in
  given args Output = None /\
  exists msg,
    main w args
    = ([Print (JObject [("success", JBool false); ("error", JString msg)])],
       SystemExit 1) /\
    msg = "Missing --input or --output" /\
    startswith "Missing --" msg = true /\
    contains "--output" msg = true /\
    dispatched (trace (main w args)) = [] /\
    spawned (trace (main w args)) = [].
Proof.
  split; [reflexivity|].
  apply (missing_required_option_is_rejected (subprocess_mock 0 "{}" "")
           (request "import_export" (Some "avatar.fbx") None None) Output).
  - simpl; tauto.
  - simpl; tauto.
  - reflexivity.
Defined.

(** C10.  The placeholder commands check their options first: [optimize]
    requires input, output and platform, [generate_lods] and [bake_textures]
    require input and output; when one of them is absent, [main] prints
    [success = False] with an error that names it, exits 1, and prints no
    placeholder. *)
Theorem stub_commands_check_required_options (w : World) (args : Namespace)
    (o : option_name) :
  In (command args) ["optimize"; "generate_lods"; "bake_textures"] ->
  In o (required_options (command args)) ->
  given args o = None ->
  required_options "optimize" = [Input; Output; Platform] /\
  required_options "generate_lods" = [Input; Output] /\
  required_options "bake_textures" = [Input; Output] /\
  exists msg,
    printed (trace (main w args))
    = [JObject [("success", JBool false); ("error", JString msg)]] /\
    msg = missing_message (command args) /\
    contains (flag o) msg = true /\
    exit_status (main w args) = Some 1 /\
    (forall m, ~ In (placeholder m) (printed (trace (main w args)))).
Proof.
  intros Hcmd Ho Hnone.
  assert (Hknown : In (command args) known_commands).
  { unfold known_commands. cbn [In] in *. tauto. }
  do 3 (split; [reflexivity|]).
  exists (missing_message (command args)).
  rewrite (main_rejects w args Hknown (missing_option_lacks args o Ho Hnone)).
  destruct (missing_message_mentions _ o Hknown Ho) as [_ Hflag].
  repeat split; try assumption.
  intros m [H|[]]. discriminate.
Qed.

Lemma stub_commands_check_required_options_witness :
  let w := subprocess_mock 0 "{}" "" in
  let args := request "optimize" (Some "avatar.fbx") (Some "out") None in
  given args Platform = None /\
  exists msg,
    printed (trace (main w args))
    = [JObject [("success", JBool false); ("error", JString msg)]] /\
    msg = "Missing --input, --output, or --platform" /\
    contains "--platform" msg = true /\
    exit_status (main w args) = Some 1 /\
    (forall m, ~ In (placeholder m) (printed (trace (main w args)))).
Proof.
  split; [reflexivity|].
  apply (stub_commands_check_required_options (subprocess_mock 0 "{}" "")
           (request "optimize" (Some "avatar.fbx") (Some "out") None)
           Platform).
  - simpl; tauto.
  - simpl; tauto.
  - reflexivity.
Defined.

(** ** The router: placeholder commands *)

(** An option given with an empty value counts as missing: [not args.input]
    is true for the empty string. *)
Example empty_option_counts_as_missing :
  main (subprocess_mock 0 "[]" "")
       (request "bake_textures" (Some "") (Some "maps") None)
  = ([Print (failure "Missing --input or --output")], SystemExit 1).
Proof. reflexivity. Qed.

(** C1, as stated, fails: [optimize] with input, output and platform given
    answers "Optimization script to be implemented", which does not contain
    the command name. *)
Lemma stub_message_omits_command_name :
  let w := subprocess_mock 0 "{}" "" in
  let args := request "optimize" (Some "avatar.fbx") (Some "out")
                (Some "vrchat_pc") in
  ~ (exists r msg,
        In r (printed (trace (main w args))) /\
        dict_get "success" r = Some (JBool true) /\
        dict_get "message" r = Some (JString msg) /\
        contains (command args) msg = true /\
        contains "to be implemented" msg = true).
Proof.
  intros w args (r & msg & Hin & _ & Hmsg & Hname & _).
  destruct Hin as [<-|[]]. cbn in Hmsg. injection Hmsg as <-.
  vm_compute in Hname. discriminate.
Qed.

(** C1, amended.  For [optimize], [generate_lods] and [bake_textures], when
    every required option is given and not empty, [main] prints
    [success = True] with the fixed message of the command ("Optimization",
    "LOD generation" or "Texture baking", then "script to be implemented"),
    exits 0, and the dispatcher is not called. *)
Theorem stub_commands_answer_placeholder (w : World) (args : Namespace) :
  In (command args) ["optimize"; "generate_lods"; "bake_textures"] ->
  (forall o, In o (required_options (command args)) ->
             py_not (given args o) = false) ->
  exists msg,
    main w args
    = ([Print (JObject [("success", JBool true); ("message", JString msg)])],
       SystemExit 0) /\
    msg = stub_message (command args) /\
    contains "to be implemented" msg = true /\
    dispatched (trace (main w args)) = [] /\
    spawned (trace (main w args)) = [].
Proof.
  intros Hcmd Hgiven. exists (stub_message (command args)).
  cbn [In] in Hcmd.
  decompose [or] Hcmd; clear Hcmd; try contradiction;
    match goal with H : _ = command args |- _ => symmetry in H end;
    match goal with
    | H : command args = _ |- _ =>
        rewrite H in Hgiven; cbn in Hgiven;
        pose proof (Hgiven Input (or_introl eq_refl)) as Hi;
        pose proof (Hgiven Output (or_intror (or_introl eq_refl))) as Ho;
        cbn in Hi, Ho;
        try (pose proof (Hgiven Platform
                           (or_intror (or_intror (or_introl eq_refl)))) as Hp;
             cbn in Hp);
        enter_main H; rewrite Hi, Ho, ?Hp
    end;
    repeat split.
Qed.

Lemma stub_commands_answer_placeholder_witness :
  let w := mock_world [] [] Hangs in
  let args := request "generate_lods" (Some "avatar.fbx") (Some "lods") None in
  exists msg,
    main w args
    = ([Print (JObject [("success", JBool true); ("message", JString msg)])],
       SystemExit 0) /\
    msg = "LOD generation script to be implemented" /\
    contains "to be implemented" msg = true /\
    dispatched (trace (main w args)) = [] /\
    spawned (trace (main w args)) = [].
Proof.
  apply (stub_commands_answer_placeholder (mock_world [] [] Hangs)
           (request "generate_lods" (Some "avatar.fbx") (Some "lods") None)).
  - simpl; tauto.
  - intros o Ho. simpl in Ho. decompose [or] Ho; subst; try contradiction;
      reflexivity.
Defined.

(** * Beyond the claims *)

(** ** The router: the remaining branches *)

Lemma dispatched_app (t u : list event) :
  dispatched (t ++ u) = (dispatched t ++ dispatched u)%list.
Proof.
  induction t as [|e t IH]; simpl; [reflexivity|].
  destruct e; simpl; rewrite IH; reflexivity.
Qed.

Lemma dispatched_probes (ps : list string) : dispatched (map Probe ps) = [].
Proof. induction ps; simpl; auto. Qed.

(** X1.  A command that is none of the six gets the "Unknown command" failure,
    whatever options come with it: one object printed, exit status 1,
    nothing dispatched. *)
Theorem unknown_command_is_reported (w : World) (args : Namespace) :
  ~ In (command args) known_commands ->
  main w args
  = ([Print (JObject [("success", JBool false);
                      ("error",
                       JString ("Unknown command: " ++ command args))])],
     SystemExit 1).
Proof.
  intros Hnot. unfold main.
  repeat match goal with
         | |- context [String.eqb (command args) ?s] =>
             let E := fresh "E" in
             destruct (String.eqb_spec (command args) s) as [E|E];
             [exfalso; apply Hnot; rewrite E; unfold known_commands;
              simpl; tauto|]
         end.
  reflexivity.
Qed.

Lemma unknown_command_is_reported_witness :
  main (subprocess_mock 0 "[]" "")
       (request "Stats" (Some "model.obj") (Some "out") (Some "imvu"))
  = ([Print (JObject [("success", JBool false);
                      ("error", JString "Unknown command: Stats")])],
     SystemExit 1).
Proof.
  apply (unknown_command_is_reported (subprocess_mock 0 "[]" "")
           (request "Stats" (Some "model.obj") (Some "out") (Some "imvu"))).
  unfold known_commands. simpl. intros H.
  decompose [or] H; try discriminate; contradiction.
Defined.

(** ** The dispatcher: resolution order and launch failure *)

Lemma probed_first (w : World) (before : list string) (exe : string)
    (after : list string) :
  (forall p, In p before -> path_exists w p = Answers false) ->
  path_exists w exe = Answers true ->
  probed w (before ++ exe :: after) = (before ++ [exe])%list /\
  search w (before ++ exe :: after) = Returns (Some exe).
Proof.
  intros Hbefore Hexe. induction before as [|p before IH]; simpl.
  - rewrite Hexe. split; reflexivity.
  - rewrite (Hbefore p (or_introl eq_refl)).
    destruct IH as [IH1 IH2]; [intros q Hq; apply Hbefore; right; exact Hq|].
    rewrite IH1, IH2. split; reflexivity.
Qed.

(** X2.  The candidates are tried in the order of the list and the search stops
    at the first one that exists: the candidates after it are not looked
    at, and exactly one process is started, with that executable, the
    script, the arguments after the separator, and the 300 second
    timeout. *)
Theorem first_existing_candidate_is_launched (w : World)
    (script_name : string) (args : list string)
    (before : list string) (exe : string) (after : list string) :
  blender_paths = (before ++ exe :: after)%list ->
  (forall p, In p before -> path_exists w p = Answers false) ->
  path_exists w exe = Answers true ->
  trace (run_blender_script w script_name args)
  = (Dispatch script_name args
       :: map Probe (before ++ [exe])
       ++ [Spawn ([exe; "--background"; "--python";
                   script_path w script_name; "--"] ++ args)
                 (300 # 1)])%list.
Proof.
  intros Hsplit Hbefore Hexe.
  destruct (probed_first w before exe after Hbefore Hexe) as [Hp Hf].
  rewrite run_blender_script_eq.
  rewrite Hsplit, Hf, Hp. reflexivity.
Qed.

Lemma first_existing_candidate_is_launched_witness :
  let w := mock_world
             ["/usr/local/bin/blender";
              "/Applications/Blender.app/Contents/MacOS/Blender"] [] Hangs in
  trace (run_blender_script w "automation.py" ["stats"; "model.obj"])
  = [Dispatch "automation.py" ["stats"; "model.obj"];
     Probe "/usr/bin/blender";
     Probe "/usr/local/bin/blender";
     Spawn ["/usr/local/bin/blender"; "--background"; "--python";
            "/srv/blender/automation.py"; "--"; "stats"; "model.obj"]
           (300 # 1)].
Proof.
  apply (first_existing_candidate_is_launched
           (mock_world
              ["/usr/local/bin/blender";
               "/Applications/Blender.app/Contents/MacOS/Blender"] [] Hangs)
           "automation.py" ["stats"; "model.obj"]
           ["/usr/bin/blender"] "/usr/local/bin/blender"
           ["/Applications/Blender.app/Contents/MacOS/Blender";
            "C:\Program Files\Blender Foundation\Blender\blender.exe"]).
  - reflexivity.
  - intros p [<-|[]]. reflexivity.
  - reflexivity.
Defined.

(** X3.  When starting the process raises anything but a timeout, the dispatcher
    returns [success = False] with the text of the exception as [error],
    and nothing else. *)
Theorem launch_failure_is_reported (w : World) (script_name : string)
    (args : list string) (exe msg : string) :
  resolve w = Some exe ->
  child w (command_line w exe script_name args) = Fails msg ->
  returned (run_blender_script w script_name args)
  = Some (JObject [("success", JBool false); ("error", JString msg)]).
Proof.
  intros Hexe Hchild.
  rewrite (returned_run_blender_script _ _ _ _ Hexe), Hchild. reflexivity.
Qed.

Lemma launch_failure_is_reported_witness :
  returned
    (run_blender_script
       (mock_world ["/usr/bin/blender"] []
          (Fails "[Errno 13] Permission denied: '/usr/bin/blender'"))
       "automation.py" ["stats"; "model.obj"])
  = Some (JObject
            [("success", JBool false);
             ("error",
              JString "[Errno 13] Permission denied: '/usr/bin/blender'")]).
Proof.
  apply (launch_failure_is_reported
           (mock_world ["/usr/bin/blender"] []
              (Fails "[Errno 13] Permission denied: '/usr/bin/blender'"))
           "automation.py" ["stats"; "model.obj"] "/usr/bin/blender").
  - reflexivity.
  - reflexivity.
Defined.

(** ** The router: commands with a script *)

Lemma dispatcher_trace (w : World) (script_name : string) (args : list string) :
  dispatched (trace (run_blender_script w script_name args))
  = [(script_name, args)] /\
  spawned (trace (run_blender_script w script_name args))
  = match resolve w with
    | Some exe => [command_line w exe script_name args]
    | None => []
    end.
Proof.
  rewrite run_blender_script_eq. unfold resolve.
  destruct (search w blender_paths) as [[exe|]|n|msg]; unfold trace;
    cbn [fst dispatched spawned];
    rewrite ?dispatched_app, ?spawned_app, ?dispatched_probes, ?spawned_probes;
    split; reflexivity.
Qed.

Lemma main_dispatch_eq (w : World) (a : list string) :
  bind (bind (ret tt) (fun _ => run_blender_script w "automation.py" a))
       (fun result =>
          bind (print result) (fun _ => sys_exit (exit_code result)))
  = finish (run_blender_script w "automation.py" a).
Proof.
  unfold bind at 2. unfold ret, finish.
  destruct (run_blender_script w "automation.py" a) as [t [r|n|msg]];
    reflexivity.
Qed.

(** With its required options given, a command of [script_commands] makes
    the call of the table and finishes with what that call gives. *)
Lemma main_dispatches (w : World) (args : Namespace) :
  In (command args) script_commands ->
  lacks_required args = false ->
  main w args
  = finish (run_blender_script w "automation.py" (dispatch_args args)).
Proof.
  unfold script_commands, lacks_required, required_options, dispatch_args.
  intros Hcmd. cbn [In] in Hcmd.
  decompose [or] Hcmd; clear Hcmd; try contradiction;
    match goal with H : _ = command args |- _ => symmetry in H; enter_main H end;
    cbn [existsb given]; rewrite ?orb_false_r; intros ->;
    fold (exit_code); apply main_dispatch_eq.
Qed.

Lemma all_given_not_lacking (args : Namespace) :
  (forall o, In o (required_options (command args)) ->
             py_not (given args o) = false) ->
  lacks_required args = false.
Proof.
  intros H. unfold lacks_required.
  destruct (existsb (fun o => py_not (given args o))
              (required_options (command args))) eqn:E; [|reflexivity].
  apply existsb_exists in E. destruct E as (o & Hin & Hnot).
  rewrite (H o Hin) in Hnot. discriminate.
Qed.

(** X4.  For [import_export], [cleanup] and [stats] with their options given,
    [main] calls the dispatcher once, on [automation.py], with the command
    name followed by the input, the output where the command has one, and
    for [import_export] the formats (or "obj,fbx" when none are given); it
    prints the result the dispatcher returns unchanged and exits 0 when
    that result's [success] is true, 1 otherwise.  The dispatcher does
    return a result when every probe of its search gets an answer. *)
Theorem script_commands_pass_result_through (w : World) (args : Namespace) :
  In (command args) ["import_export"; "cleanup"; "stats"] ->
  (forall o, In o (required_options (command args)) ->
             py_not (given args o) = false) ->
  dispatched (trace (main w args)) = [("automation.py", dispatch_args args)]
  /\
  (forall r,
      returned (run_blender_script w "automation.py" (dispatch_args args))
      = Some r ->
      printed (trace (main w args)) = [r] /\
      exit_status (main w args)
      = Some (if get_truthy "success" r then 0 else 1))
  /\
  (probes_answer w ->
   exists r,
     returned (run_blender_script w "automation.py" (dispatch_args args))
     = Some r).
Proof.
  intros Hcmd Hgiven.
  rewrite (main_dispatches w args Hcmd (all_given_not_lacking args Hgiven)).
  pose proof (dispatcher_trace w "automation.py" (dispatch_args args))
    as [Hd _].
  split; [|split].
  - destruct (run_blender_script w "automation.py" (dispatch_args args))
      as [t [r|n|msg]]; unfold trace in *; cbn [fst finish] in *;
      rewrite ?dispatched_app, Hd; reflexivity.
  - intros r Hret.
    destruct (run_blender_script w "automation.py" (dispatch_args args))
      as [t [r'|n|msg]] eqn:E; unfold returned in Hret; cbn [snd] in Hret;
      try discriminate.
    injection Hret as ->.
    destruct (dispatcher_result w _ _ t r E) as (Hquiet & _ & _).
    unfold trace, exit_status. cbn [fst snd finish].
    rewrite printed_app, Hquiet. split; reflexivity.
  - intros Hans.
    destruct (run_blender_script_returns w "automation.py" (dispatch_args args)
                Hans) as (t & r & E).
    exists r. rewrite E. reflexivity.
Qed.

Lemma script_commands_pass_result_through_witness :
  let w := subprocess_mock 0 mesh_stats_stdout "" in
  let args := request "import_export" (Some "avatar.fbx") (Some "out") None in
  let r := JObject [("success", JBool true);
                    ("data", JObject [("mesh_count", JInt 2);
                                      ("total_vertices", JInt 10)]);
                    ("stderr", JString "")] in
  dispatched (trace (main w args))
  = [("automation.py", ["import_export"; "avatar.fbx"; "out"; "obj,fbx"])]
  /\ printed (trace (main w args)) = [r]
  /\ exit_status (main w args) = Some 0.
Proof.
  intros w args r.
  assert (Hc : In (command args) ["import_export"; "cleanup"; "stats"])
    by (simpl; tauto).
  assert (Hg : forall o, In o (required_options (command args)) ->
                         py_not (given args o) = false).
  { intros o Ho. simpl in Ho. decompose [or] Ho; subst; try contradiction;
      reflexivity. }
  destruct (script_commands_pass_result_through w args Hc Hg)
    as (Hd & Hr & _).
  assert (Hret : returned (run_blender_script w "automation.py"
                             (dispatch_args args)) = Some r)
    by reflexivity.
  split; [exact Hd|]. exact (Hr r Hret).
Defined.

(** What [main] starts is what its dispatcher call starts, if it makes
    one. *)
Lemma main_spawned (w : World) (args : Namespace) :
  spawned (trace (main w args)) = [] \/
  (In (command args) script_commands /\
   spawned (trace (main w args))
   = spawned (trace (run_blender_script w "automation.py"
                       (dispatch_args args)))).
Proof.
  destruct (main_cases w args) as [[Hcmd Hopts]|[r Hmain]].
  - right. split; [exact Hcmd|].
    rewrite (main_dispatches w args Hcmd Hopts).
    destruct (run_blender_script w "automation.py" (dispatch_args args))
      as [t [r|n|msg]]; unfold trace; cbn [fst finish]; [|reflexivity..].
    rewrite spawned_app. cbn [spawned]. apply app_nil_r.
  - left. rewrite Hmain. reflexivity.
Qed.

(** X5.  A run of [main] starts at most one process, and only ever Blender on
    [automation.py] for one of the three commands that have a script: the
    processes started are none, or the single command line built from the
    resolved executable and the arguments of the table. *)
Theorem main_starts_at_most_blender_once (w : World) (args : Namespace) :
  spawned (trace (main w args)) = [] \/
  exists exe,
    In (command args) ["import_export"; "cleanup"; "stats"] /\
    resolve w = Some exe /\
    spawned (trace (main w args))
    = [([exe; "--background"; "--python"; script_path w "automation.py"; "--"]
          ++ dispatch_args args)%list].
Proof.
  destruct (main_spawned w args) as [Hnone|[Hcmd Hs]]; [left; exact Hnone|].
  rewrite Hs.
  rewrite (proj2 (dispatcher_trace w "automation.py" (dispatch_args args))).
  destruct (resolve w) as [exe|]; [right|left; reflexivity].
  exists exe. repeat split. exact Hcmd.
Qed.

(** X6.  [main] reads the command, the input, the output, the formats and the
    platform, and nothing else: the target polygon count, the quality, the
    resolution, the samples and the number of LOD levels change nothing. *)
Theorem unused_options_are_ignored (w : World) (a b : Namespace) :
  command a = command b ->
  input a = input b ->
  output a = output b ->
  formats a = formats b ->
  platform a = platform b ->
  main w a = main w b.
Proof.
  intros Hc Hi Ho Hf Hp. unfold main. rewrite Hc, Hi, Ho, Hf, Hp.
  reflexivity.
Qed.

Lemma unused_options_are_ignored_witness :
  main (subprocess_mock 0 mesh_stats_stdout "")
       {| command := "cleanup"; input := Some "a.obj"; output := Some "b.obj";
          formats := None; target_polys := Some 5000; platform := None;
          quality := Some "fast"; resolution := 512; samples := 8;
          lod_levels := 2 |}
  = main (subprocess_mock 0 mesh_stats_stdout "")
       (request "cleanup" (Some "a.obj") (Some "b.obj") None).
Proof.
  apply (unused_options_are_ignored (subprocess_mock 0 mesh_stats_stdout ""));
    reflexivity.
Defined.

(** X7.  For a command with a script and its options given, [main] exits 0
    exactly when a Blender executable is found, the process ends within
    the timeout with exit code 0, and [json.loads] does not raise anything
    but [JSONDecodeError] on what the process printed; otherwise it exits
    1, or it ends in the [OSError] of a probe. *)
Theorem script_command_exit_status (w : World) (args : Namespace) :
  In (command args) ["import_export"; "cleanup"; "stats"] ->
  (forall o, In o (required_options (command args)) ->
             py_not (given args o) = false) ->
  (exit_status (main w args) = Some 0 <->
   exists exe elapsed out err,
     resolve w = Some exe /\
     child w (command_line w exe "automation.py" (dispatch_args args))
     = Exits elapsed 0 out err /\
     (elapsed <= 300 # 1)%Q /\
     (forall e, json_loads (limits w) out <> Raises e)) /\
  (exit_status (main w args) = Some 0 \/
   exit_status (main w args) = Some 1 \/
   exists p msg,
     In p blender_paths /\ path_exists w p = OSError msg /\
     uncaught (main w args) = Some msg).
Proof.
  intros Hcmd Hgiven.
  rewrite (main_dispatches w args Hcmd (all_given_not_lacking args Hgiven)).
  destruct (run_blender_script_ends w "automation.py" (dispatch_args args))
    as [(t & r & E)|(p & msg & Hin & Hp & E)]; rewrite E;
    unfold exit_status, uncaught; cbn [snd finish].
  2:{ split.
      - split; [discriminate|].
        intros (exe & el & o & e & Hr & _).
        apply resolve_search in Hr.
        rewrite run_blender_script_eq, Hr in E. discriminate.
      - right. right. exists p, msg.
        split; [exact (probed_incl w _ p Hin)|]. split; [exact Hp|reflexivity]. }
  rewrite run_blender_script_eq in E. unfold resolve.
  destruct (search w blender_paths) as [[exe|]|n|msg]; cbv zeta in E;
    try discriminate; injection E as _ <-.
  - destruct (child w (command_line w exe "automation.py" (dispatch_args args)))
      as [msg|elapsed rc out err|] eqn:Hchild.
    + split; [|right; left; reflexivity].
      split; [discriminate|].
      intros (exe' & el & o & e & [= <-] & Hc & _).
      rewrite Hchild in Hc. discriminate.
    + unfold await.
      destruct (Qle_bool elapsed timeout) eqn:Hle.
      * unfold classify.
        destruct (json_loads (limits w) out) as [v| |e] eqn:Hjson.
        -- change (exit_code _) with (if rc =? 0 then 0 else 1).
           destruct (Z.eqb_spec rc 0) as [->|Hrc].
           ++ split; [|left; reflexivity]. split; [|reflexivity].
              intros _. exists exe, elapsed, out, err.
              split; [reflexivity|]. split; [exact Hchild|].
              split; [apply Qle_bool_iff; exact Hle|].
              intros e. rewrite Hjson. discriminate.
           ++ split; [|right; left; reflexivity]. split; [discriminate|].
              intros (exe' & el & o & e & [= <-] & Hc & _).
              rewrite Hchild in Hc. injection Hc as _ Hz _ _. contradiction.
        -- change (exit_code _) with (if rc =? 0 then 0 else 1).
           destruct (Z.eqb_spec rc 0) as [->|Hrc].
           ++ split; [|left; reflexivity]. split; [|reflexivity].
              intros _. exists exe, elapsed, out, err.
              split; [reflexivity|]. split; [exact Hchild|].
              split; [apply Qle_bool_iff; exact Hle|].
              intros e. rewrite Hjson. discriminate.
           ++ split; [|right; left; reflexivity]. split; [discriminate|].
              intros (exe' & el & o & e & [= <-] & Hc & _).
              rewrite Hchild in Hc. injection Hc as _ Hz _ _. contradiction.
        -- split; [|right; left; reflexivity]. split; [discriminate|].
           intros (exe' & el & o & e' & [= <-] & Hc & _ & Hno).
           rewrite Hchild in Hc. injection Hc as _ _ <- _.
           exfalso. exact (Hno e Hjson).
      * split; [|right; left; reflexivity]. split; [discriminate|].
        intros (exe' & el & o & e & [= <-] & Hc & Hq & _).
        rewrite Hchild in Hc. injection Hc as <- _ _ _.
        apply Qle_bool_iff in Hq. unfold timeout in Hle.
        rewrite Hq in Hle. discriminate.
    + split; [|right; left; reflexivity]. split; [discriminate|].
      intros (exe' & el & o & e & [= <-] & Hc & _).
      rewrite Hchild in Hc. discriminate.
  - split; [|right; left; reflexivity]. split; [discriminate|].
    intros (exe' & el & o & e & Hr & _). discriminate.
Qed.

Lemma script_command_exit_status_witness :
  let w := subprocess_mock 0 "Blender quit" "" in
  let args := request "stats" (Some "model.obj") None None in
  exit_status (main w args) = Some 0.
Proof.
  intros w args.
  assert (Hc : In (command args) ["import_export"; "cleanup"; "stats"])
    by (simpl; tauto).
  assert (Hg : forall o, In o (required_options (command args)) ->
                         py_not (given args o) = false).
  { intros o Ho. simpl in Ho. decompose [or] Ho; subst; try contradiction;
      reflexivity. }
  apply (proj1 (script_command_exit_status w args Hc Hg)).
  exists "/usr/bin/blender", (1 # 1), "Blender quit", "".
  split; [reflexivity|]. split; [reflexivity|].
  split; [unfold Qle; simpl; lia|].
  intros e. vm_compute. discriminate.
Defined.

(** ** automation.py: the statistics *)

Module AutomationFacts.
Import Automation.

Lemma fold_left_add (l : list Z) (a : Z) : fold_left Z.add l a = a + sum l.
Proof.
  revert a. induction l as [|x l IH]; intros a; simpl.
  - lia.
  - rewrite IH. unfold sum. simpl. lia.
Qed.

Lemma sum_app (l m : list Z) : sum (l ++ m) = sum l + sum m.
Proof. unfold sum. induction l; simpl; lia. Qed.

(** Every polygon of [n] vertices counts [n - 2]; the case of three
    vertices in the code is an instance. *)
Lemma triangles_eq (mesh : Mesh) :
  triangles mesh
  = sum (map Z.of_nat (polygons mesh)) - 2 * Z.of_nat (length (polygons mesh)).
Proof.
  unfold triangles. rewrite fold_left_add. destruct mesh as [v ps].
  cbn [polygons]. unfold sum.
  induction ps as [|n ps IH]; [reflexivity|].
  cbn [map fold_right length]. rewrite Nat2Z.inj_succ.
  destruct (Z.eqb_spec (Z.of_nat n) 3); lia.
Qed.

Lemma add_object_mesh (acc : Stats) (obj : Object) :
  is_mesh obj = true ->
  add_object acc obj
  = {| mesh_count := mesh_count acc + 1;
       total_vertices := total_vertices acc + entry_vertices (entry_of obj);
       total_faces := total_faces acc + entry_faces (entry_of obj);
       total_triangles := total_triangles acc + entry_triangles (entry_of obj);
       meshes := (meshes acc ++ [entry_of obj])%list |}.
Proof. unfold is_mesh, add_object. intros ->. reflexivity. Qed.

Lemma add_object_other (acc : Stats) (obj : Object) :
  is_mesh obj = false -> add_object acc obj = acc.
Proof. unfold is_mesh, add_object. intros ->. reflexivity. Qed.

Lemma stats_fold (objects : list Object) (acc : Stats) :
  let meshes_seen := map entry_of (filter is_mesh objects) in
  let st := fold_left add_object objects acc in
  mesh_count st = mesh_count acc + Z.of_nat (length meshes_seen) /\
  total_vertices st = total_vertices acc + sum (map entry_vertices meshes_seen)
  /\ total_faces st = total_faces acc + sum (map entry_faces meshes_seen)
  /\ total_triangles st
     = total_triangles acc + sum (map entry_triangles meshes_seen)
  /\ meshes st = (meshes acc ++ meshes_seen)%list.
Proof.
  revert acc. induction objects as [|obj objects IH]; intros acc.
  - cbn. rewrite app_nil_r. repeat split; lia.
  - cbn [fold_left filter]. destruct (is_mesh obj) eqn:Hm.
    + rewrite (add_object_mesh acc obj Hm).
      destruct (IH {| mesh_count := mesh_count acc + 1;
                      total_vertices :=
                        total_vertices acc + entry_vertices (entry_of obj);
                      total_faces :=
                        total_faces acc + entry_faces (entry_of obj);
                      total_triangles :=
                        total_triangles acc + entry_triangles (entry_of obj);
                      meshes := (meshes acc ++ [entry_of obj])%list |})
        as (H1 & H2 & H3 & H4 & H5).
      cbn [mesh_count total_vertices total_faces total_triangles meshes]
        in H1, H2, H3, H4, H5.
      cbn zeta. rewrite H1, H2, H3, H4, H5.
      cbn [map length]. unfold sum. cbn [fold_right].
      rewrite Nat2Z.inj_succ, <- app_assoc.
      repeat split; try lia.
    + rewrite (add_object_other acc obj Hm). apply IH.
Qed.

(** X10.  The report is consistent: the count is the number of entries of
    ["meshes"], each total is the sum of the like field over the entries,
    and the entries are the mesh objects of the scene, in its order;
    objects of other types leave no mark. *)
Theorem stats_totals_match_entries (objects : list Object) :
  let st := get_mesh_stats objects in
  mesh_count st = Z.of_nat (length (meshes st)) /\
  total_vertices st = sum (map entry_vertices (meshes st)) /\
  total_faces st = sum (map entry_faces (meshes st)) /\
  total_triangles st = sum (map entry_triangles (meshes st)) /\
  map entry_name (meshes st) = map name (filter is_mesh objects).
Proof.
  destruct (stats_fold objects no_stats) as (H1 & H2 & H3 & H4 & H5).
  cbn zeta in *. unfold get_mesh_stats. rewrite H1, H2, H3, H4, H5.
  cbn [no_stats mesh_count total_vertices total_faces total_triangles meshes
       app].
  repeat split; try lia.
  rewrite map_map. reflexivity.
Qed.

Lemma corners_triangles (ms : list Object) :
  sum (map entry_triangles (map entry_of ms))
  = sum (map (fun obj => sum (map Z.of_nat (polygons (data obj)))) ms)
    - 2 * sum (map entry_faces (map entry_of ms)).
Proof.
  induction ms as [|obj ms IH]; [reflexivity|].
  cbn [map]. unfold sum in *. cbn [fold_right]. rewrite IH.
  cbn [entry_of entry_triangles entry_faces].
  rewrite triangles_eq. unfold sum. lia.
Qed.

(** X11.  The triangle total is the number of polygon corners less twice the
    number of faces. *)
Theorem total_triangles_is_corners_less_two_per_face (objects : list Object) :
  total_triangles (get_mesh_stats objects)
  = corners objects - 2 * total_faces (get_mesh_stats objects).
Proof.
  destruct (stats_fold objects no_stats) as (_ & _ & H3 & H4 & _).
  cbn zeta in *. unfold get_mesh_stats, corners. rewrite H3, H4.
  cbn [no_stats total_faces total_triangles]. rewrite corners_triangles. lia.
Qed.

Lemma polygon_corners (ps : list nat) :
  (forall n, In n ps -> (3 <= n)%nat) ->
  3 * Z.of_nat (length ps) <= sum (map Z.of_nat ps) /\
  (sum (map Z.of_nat ps) = 3 * Z.of_nat (length ps) <->
   forall n, In n ps -> n = 3%nat).
Proof.
  induction ps as [|n ps IH]; intros Hn.
  - split; [cbn; lia|]. split; [intros _ n []|reflexivity].
  - destruct IH as [IH1 IH2]; [intros m Hm; apply Hn; right; exact Hm|].
    pose proof (Hn n (or_introl eq_refl)) as H3n.
    unfold sum in *. cbn [map length fold_right].
    rewrite Nat2Z.inj_succ.
    split; [lia|]. split.
    + intros Heq m [<-|Hm]; [lia|]. apply (proj1 IH2); [lia|exact Hm].
    + intros Hall. rewrite (Hall n (or_introl eq_refl)).
      assert (Hrest : fold_right Z.add 0 (map Z.of_nat ps)
                      = 3 * Z.of_nat (length ps))
        by (apply (proj2 IH2); intros m Hm; apply Hall; right; exact Hm).
      lia.
Qed.

Lemma scene_corners (ms : list Object) :
  (forall obj n, In obj ms -> In n (polygons (data obj)) -> (3 <= n)%nat) ->
  3 * sum (map entry_faces (map entry_of ms))
  <= sum (map (fun obj => sum (map Z.of_nat (polygons (data obj)))) ms) /\
  (sum (map (fun obj => sum (map Z.of_nat (polygons (data obj)))) ms)
   = 3 * sum (map entry_faces (map entry_of ms)) <->
   forall obj n, In obj ms -> In n (polygons (data obj)) -> n = 3%nat).
Proof.
  induction ms as [|obj ms IH]; intros Hn.
  - split; [cbn; lia|]. split; [intros _ obj n []|reflexivity].
  - destruct IH as [IH1 IH2];
      [intros o n Ho Hin; exact (Hn o n (or_intror Ho) Hin)|].
    destruct (polygon_corners (polygons (data obj))
                (fun n Hin => Hn obj n (or_introl eq_refl) Hin))
      as [Hm1 Hm2].
    cbn [map]. cbn [entry_of entry_faces].
    unfold sum in *. cbn [fold_right].
    split; [lia|]. split.
    + intros Heq o n [<-|Ho] Hin.
      * apply (proj1 Hm2); [lia|exact Hin].
      * eapply (proj1 IH2); [lia|exact Ho|exact Hin].
    + intros Hall.
      assert (H1 : fold_right Z.add 0 (map Z.of_nat (polygons (data obj)))
                   = 3 * Z.of_nat (length (polygons (data obj))))
        by (apply (proj2 Hm2); intros n Hin;
            exact (Hall obj n (or_introl eq_refl) Hin)).
      assert (H2 : fold_right Z.add 0
                     (map (fun o => fold_right Z.add 0
                                      (map Z.of_nat (polygons (data o)))) ms)
                   = 3 * fold_right Z.add 0
                           (map entry_faces (map entry_of ms)))
        by (apply (proj2 IH2); intros o n Ho Hin;
            exact (Hall o n (or_intror Ho) Hin)).
      lia.
Qed.

(** X12.  When every polygon has at least three vertices, there are at least as
    many triangles as faces, and as many exactly when every face is a
    triangle. *)
Theorem triangles_at_least_faces (objects : list Object) :
  (forall obj n, In obj objects -> is_mesh obj = true ->
                 In n (polygons (data obj)) -> (3 <= n)%nat) ->
  total_faces (get_mesh_stats objects)
  <= total_triangles (get_mesh_stats objects) /\
  (total_triangles (get_mesh_stats objects)
   = total_faces (get_mesh_stats objects) <->
   forall obj n, In obj objects -> is_mesh obj = true ->
                 In n (polygons (data obj)) -> n = 3%nat).
Proof.
  intros Hpoly.
  destruct (stats_fold objects no_stats) as (_ & _ & H3 & H4 & _).
  cbn zeta in H3, H4. unfold get_mesh_stats. rewrite H3, H4.
  cbn [no_stats total_faces total_triangles]. rewrite corners_triangles.
  destruct (scene_corners (filter is_mesh objects)) as [Hle Heq].
  { intros obj n Hin Hn. apply filter_In in Hin. destruct Hin as [Ho Hm].
    exact (Hpoly obj n Ho Hm Hn). }
  split; [lia|]. split.
  - intros Htri obj n Hin Hm Hn.
    eapply (proj1 Heq); [lia| |exact Hn].
    apply filter_In. split; assumption.
  - intros Hthree.
    assert (Hex : sum (map (fun obj => sum (map Z.of_nat (polygons (data obj))))
                           (filter is_mesh objects))
                  = 3 * sum (map entry_faces
                               (map entry_of (filter is_mesh objects)))).
    { apply (proj2 Heq). intros obj n Hin Hn. apply filter_In in Hin.
      destruct Hin as [Ho Hm]. exact (Hthree obj n Ho Hm Hn). }
    lia.
Qed.

Lemma triangles_at_least_faces_witness :
  let pentagon :=
    {| name := "Cap"; type := "MESH";
       data := {| vertices := 5; polygons := [5%nat; 3%nat] |} |} in
  let lamp :=
    {| name := "Light"; type := "LIGHT";
       data := {| vertices := 0; polygons := [] |} |} in
  total_faces (get_mesh_stats [quad; lamp; pentagon]) = 3 /\
  total_triangles (get_mesh_stats [quad; lamp; pentagon]) = 6 /\
  total_faces (get_mesh_stats [quad; lamp; pentagon])
  <= total_triangles (get_mesh_stats [quad; lamp; pentagon]).
Proof.
  split; [reflexivity|]. split; [reflexivity|].
  apply (triangles_at_least_faces
           [quad;
            {| name := "Light"; type := "LIGHT";
               data := {| vertices := 0; polygons := [] |} |};
            {| name := "Cap"; type := "MESH";
               data := {| vertices := 5; polygons := [5%nat; 3%nat] |} |}]).
  intros obj n Hin _ Hn. simpl in Hin.
  decompose [or] Hin; subst; simpl in Hn; decompose [or] Hn; subst;
    try contradiction; lia.
Defined.


(** ** automation.py: runs of the script *)

Lemma stdout_app (t u : list output) :
  stdout (t ++ u) = (stdout t ++ stdout u)%list.
Proof.
  induction t as [|o t IH]; [reflexivity|].
  destruct o; cbn; rewrite IH; reflexivity.
Qed.

Lemma stderr_app (t u : list output) :
  stderr (t ++ u) = (stderr t ++ stderr u)%list.
Proof.
  induction t as [|o t IH]; [reflexivity|].
  destruct o; cbn; rewrite IH; reflexivity.
Qed.

Lemma calls_app (t u : list output) :
  calls (t ++ u) = (calls t ++ calls u)%list.
Proof.
  induction t as [|o t IH]; [reflexivity|].
  destruct o; cbn; rewrite IH; reflexivity.
Qed.

Lemma imports_app (t u : list output) :
  imports (t ++ u) = (imports t ++ imports u)%list.
Proof. unfold imports. rewrite calls_app. apply filter_app. Qed.

Lemma written_app (t u : list output) :
  written (t ++ u) = (written t ++ written u)%list.
Proof.
  induction t as [|o t IH]; [reflexivity|].
  destruct o as [c| |]; cbn; try exact IH.
  destruct c; cbn; rewrite IH; reflexivity.
Qed.

Lemma gltf_exports_app (t u : list output) :
  gltf_exports (t ++ u) = (gltf_exports t ++ gltf_exports u)%list.
Proof.
  induction t as [|o t IH]; [reflexivity|].
  destruct o as [c| |]; cbn; try exact IH.
  destruct c; cbn; rewrite IH; reflexivity.
Qed.

Section Runs.
Variable H : Host.

(** What the glTF exports of a run are allowed to be. *)
Variable good : string * string -> Prop.

Lemma footprint_nil : footprint good [] [] [].
Proof. repeat split. constructor. Qed.

Lemma footprint_app (X1 X2 : list call) (Y1 Y2 : list string)
    (t1 t2 : list output) :
  footprint good X1 Y1 t1 -> footprint good X2 Y2 t2 ->
  footprint good (X1 ++ X2)%list (Y1 ++ Y2)%list (t1 ++ t2)%list.
Proof.
  intros (A1 & B1 & C1 & D1) (A2 & B2 & C2 & D2). unfold footprint.
  rewrite stdout_app, imports_app, written_app, gltf_exports_app.
  rewrite A1, A2, B1, B2, C1, C2. repeat split.
  apply Forall_app. split; assumption.
Qed.

Lemma footprint_stderr (X : list call) (Y : list string) (t : list output)
    (line : string) :
  footprint good X Y t -> footprint good X Y (t ++ [Stderr line])%list.
Proof.
  intros Ht. rewrite <- (app_nil_r X), <- (app_nil_r Y).
  apply footprint_app; [exact Ht|]. repeat split. constructor.
Qed.

Lemma returns_may_raise {A} (m : Script H A) (P : list output -> Prop) :
  returns m P -> may_raise m P.
Proof.
  intros Hm s. destruct (Hm s) as (s' & t & a & E & Ht).
  exists s', t, (Ok a). repeat split; [exact E|exact Ht|discriminate].
Qed.

Lemma may_raise_ret {A} (a : A) (P : list output -> Prop) :
  P [] -> may_raise (H:=H) (ret a) P.
Proof.
  intros HP s. exists s, [], (Ok a).
  repeat split; [exact HP|discriminate].
Qed.

Lemma may_raise_read {A} (f : state H -> A) (P : list output -> Prop) :
  P [] -> may_raise (read f) P.
Proof.
  intros HP s. exists s, [], (Ok (f s)).
  repeat split; [exact HP|discriminate].
Qed.

Lemma may_raise_bpy (c : call) (P : list output -> Prop) :
  P [Called c] -> may_raise (H:=H) (bpy c) P.
Proof.
  intros HP s. unfold bpy. destruct (exec H c s) as [s' [e|]].
  - exists s', [Called c], (Raised e). repeat split; [exact HP|discriminate].
  - exists s', [Called c], (Ok tt). repeat split; [exact HP|discriminate].
Qed.

Lemma may_raise_bind {A B} (m : Script H A) (k : A -> Script H B)
    (P1 P2 P : list output -> Prop) :
  may_raise m P1 ->
  (forall a, may_raise (k a) P2) ->
  (forall t1, P1 t1 -> P t1) ->
  (forall t1 t2, P1 t1 -> P2 t2 -> P (t1 ++ t2)%list) ->
  may_raise (bind m k) P.
Proof.
  intros Hm Hk Hstop Hgo s. unfold bind.
  destruct (Hm s) as (s1 & t1 & r1 & E1 & H1 & Hx1). rewrite E1.
  destruct r1 as [a|n|e].
  - destruct (Hk a s1) as (s2 & t2 & r2 & E2 & H2 & Hx2). rewrite E2.
    exists s2, (t1 ++ t2)%list, r2. repeat split; [|exact Hx2].
    apply Hgo; assumption.
  - exfalso. exact (Hx1 n eq_refl).
  - exists s1, t1, (Raised e). repeat split; [|discriminate].
    apply Hstop. exact H1.
Qed.

(** A body that touches neither standard output, nor imports, nor files. *)
Lemma inert_bind {A B} (m : Script H A) (k : A -> Script H B) :
  may_raise m (footprint good [] []) ->
  (forall a, may_raise (k a) (footprint good [] [])) ->
  may_raise (bind m k) (footprint good [] []).
Proof.
  intros Hm Hk.
  apply (may_raise_bind m k (footprint good [] []) (footprint good [] [])
           (footprint good [] []) Hm Hk); [auto|].
  intros t1 t2 H1 H2. exact (footprint_app [] [] [] [] t1 t2 H1 H2).
Qed.

Lemma returns_attempt (label : string) (body : Script H bool)
    (X : list call) (Y : list string) :
  may_raise body (footprint good X Y) ->
  returns (attempt label body) (footprint good X Y).
Proof.
  intros Hbody s. unfold attempt.
  destruct (Hbody s) as (s' & t & r & E & Ht & Hx). rewrite E.
  destruct r as [b|n|e].
  - exists s', t, b. split; [reflexivity|exact Ht].
  - exfalso. exact (Hx n eq_refl).
  - exists s', (t ++ [Stderr (label ++ e)])%list, false.
    split; [reflexivity|]. apply footprint_stderr. exact Ht.
Qed.

Lemma bind_returns {A B} (m : Script H A) (k : A -> Script H B)
    (s s1 : state H) (t1 : list output) (a : A) :
  m s = (s1, t1, Ok a) ->
  bind m k s
  = match k a s1 with (s2, t2, r) => (s2, (t1 ++ t2)%list, r) end.
Proof. intros E. unfold bind. rewrite E. reflexivity. Qed.


Ltac inert :=
  repeat first
    [ apply inert_bind; [|intros ?]
    | apply may_raise_bpy; repeat split; constructor
    | apply may_raise_ret; apply footprint_nil
    | apply may_raise_read; apply footprint_nil ].

Lemma select_loop_inert (objects : list Object) :
  may_raise
    (for_each objects
       (fun obj =>
          if String.eqb (type obj) "MESH" then bpy (H:=H) (select_set obj true)
          else ret tt))
    (footprint good [] []).
Proof.
  induction objects as [|obj objects IH]; cbn [for_each].
  - apply may_raise_ret, footprint_nil.
  - apply inert_bind; [|intros _; exact IH].
    destruct (String.eqb (type obj) "MESH"); inert.
Qed.

Lemma select_meshes_inert : may_raise (select_meshes H) (footprint good [] []).
Proof.
  unfold select_meshes.
  apply inert_bind; [inert|]. intros _.
  apply inert_bind; [inert|]. intros objects.
  apply select_loop_inert.
Qed.

(** Cleaning and unwrapping always come back, whatever Blender does, and
    neither import nor write anything. *)
Lemma cleanup_mesh_returns (remove_doubles : bool) (distance : Q) :
  returns (cleanup_mesh H remove_doubles distance) (footprint good [] []).
Proof.
  apply returns_attempt.
  apply inert_bind; [apply select_meshes_inert|]. intros _.
  apply inert_bind; [inert|]. intros selected.
  destruct selected as [|first rest]; [inert|].
  destruct remove_doubles; inert.
Qed.

Lemma unwrap_uvs_returns (method : string) :
  returns (unwrap_uvs H method) (footprint good [] []).
Proof.
  apply returns_attempt.
  apply inert_bind; [apply select_meshes_inert|]. intros _.
  apply inert_bind; [inert|]. intros selected.
  destruct selected as [|first rest]; [inert|].
  destruct (String.eqb method "smart"); [inert|].
  destruct (String.eqb method "cube"); [inert|].
  destruct (String.eqb method "sphere"); [inert|].
  destruct (String.eqb method "cylinder"); inert.
Qed.

Ltac straight_line :=
  intros s;
  cbv [import_obj import_fbx export_obj export_fbx export_gltf export_dae
       attempt bind bpy ret];
  repeat match goal with
         | |- context [exec ?h ?c ?x] => destruct (exec h c x) as [? [?|]]
         end;
  do 3 eexists; (split; [reflexivity|]);
  unfold footprint; cbn; repeat split; auto.

(** An import is one call of the operator, whether it raises or not. *)
Lemma import_obj_returns (filepath : string) :
  returns (import_obj H filepath)
          (footprint good [import_scene_obj filepath] []).
Proof. straight_line. Qed.

Lemma import_fbx_returns (filepath : string) :
  returns (import_fbx H filepath)
          (footprint good [import_scene_fbx filepath] []).
Proof. straight_line. Qed.

(** An export sets out to write its file, and always comes back. *)
Lemma export_obj_returns (filepath : string) (apply_modifiers : bool) :
  returns (export_obj H filepath apply_modifiers)
          (footprint good [] [filepath]).
Proof. straight_line. Qed.

Lemma export_fbx_returns (filepath : string)
    (apply_modifiers use_armature : bool) :
  returns (export_fbx H filepath apply_modifiers use_armature)
          (footprint good [] [filepath]).
Proof. straight_line. Qed.

Lemma export_dae_returns (filepath : string) :
  returns (export_dae H filepath) (footprint good [] [filepath]).
Proof. straight_line. Qed.

Lemma export_gltf_returns (filepath : string) (draco_compression : bool) :
  good (filepath,
        if endswith ".glb" filepath then "GLB" else "GLTF_SEPARATE") ->
  returns (export_gltf H filepath draco_compression)
          (footprint good [] [filepath]).
Proof. intros Hgood. straight_line. Qed.


Lemma bind_ret_l {A B} (a : A) (k : A -> Script H B) (s : state H) :
  bind (ret a) k s = k a s.
Proof.
  unfold bind, ret. destruct (k a s) as [[s2 t2] r]. reflexivity.
Qed.

Lemma setup_inert : may_raise (_setup_scene H) (footprint good [] []).
Proof. unfold _setup_scene. inert. Qed.

Lemma setup_footprint (s s0 : state H) (t0 : list output) :
  _setup_scene H s = (s0, t0, Ok tt) -> footprint good [] [] t0.
Proof.
  intros E. destruct (setup_inert s) as (s' & t & r & E' & Ht & _).
  rewrite E in E'. injection E' as _ <- _. exact Ht.
Qed.

(** The import [main] starts every command with. *)
Lemma import_step_returns (input_file : string) :
  returns
    (if endswith ".obj" input_file then
       bind (import_obj H input_file) (fun _ => ret tt)
     else if endswith ".fbx" input_file then
       bind (import_fbx H input_file) (fun _ => ret tt)
     else ret tt)
    (footprint good (import_for input_file) []).
Proof.
  unfold import_for. intros s.
  destruct (endswith ".obj" input_file).
  - destruct (import_obj_returns input_file s) as (s1 & t1 & b & E & F).
    exists s1, t1, tt. rewrite (bind_returns _ _ _ _ _ _ E).
    cbn. rewrite app_nil_r. split; [reflexivity|exact F].
  - destruct (endswith ".fbx" input_file).
    + destruct (import_fbx_returns input_file s) as (s1 & t1 & b & E & F).
      exists s1, t1, tt. rewrite (bind_returns _ _ _ _ _ _ E).
      cbn. rewrite app_nil_r. split; [reflexivity|exact F].
    + exists s, [], tt. split; [reflexivity|apply footprint_nil].
Qed.

Lemma discard_returns (m : Script H bool) (X : list call) (Y : list string) :
  returns m (footprint good X Y) ->
  returns (bind m (fun _ => ret tt)) (footprint good X Y).
Proof.
  intros Hm s. destruct (Hm s) as (s1 & t1 & b & E & F).
  exists s1, t1, tt. rewrite (bind_returns _ _ _ _ _ _ E).
  cbn. rewrite app_nil_r. split; [reflexivity|exact F].
Qed.

(** The export loop of [import_export]: the formats in order, those without
    an exporter passed over. *)
Lemma export_loop_returns (output_dir base_name : string)
    (formats : list string) :
  (forall fmt, In fmt formats -> String.eqb fmt "gltf" || String.eqb fmt "glb"
                                 = true ->
     good (path_join H output_dir (base_name ++ "." ++ fmt),
           if endswith ".glb" (path_join H output_dir (base_name ++ "." ++ fmt))
           then "GLB" else "GLTF_SEPARATE")) ->
  returns
    (for_each formats
       (fun fmt =>
          let output_path := path_join H output_dir (base_name ++ "." ++ fmt) in
          if String.eqb fmt "obj" then
            bind (export_obj H output_path true) (fun _ => ret tt)
          else if String.eqb fmt "fbx" then
            bind (export_fbx H output_path true true) (fun _ => ret tt)
          else if String.eqb fmt "gltf" || String.eqb fmt "glb" then
            bind (export_gltf H output_path false) (fun _ => ret tt)
          else if String.eqb fmt "dae" then
            bind (export_dae H output_path) (fun _ => ret tt)
          else ret tt))
    (footprint good []
       (map (fun fmt => path_join H output_dir (base_name ++ "." ++ fmt))
            (filter known_format formats))).
Proof.
  match goal with |- context [for_each _ ?b] => set (body := b) end.
  induction formats as [|fmt formats IH]; intros Hgood s.
  - exists s, [], tt. split; [reflexivity|apply footprint_nil].
  - assert (Hone : exists s1 t1,
               body fmt s = (s1, t1, Ok tt) /\
               footprint good []
                 (if known_format fmt
                  then [path_join H output_dir (base_name ++ "." ++ fmt)]
                  else []) t1).
    { unfold known_format. subst body. cbv beta zeta.
      pose proof (Hgood fmt (or_introl eq_refl)) as Hg.
      destruct (String.eqb fmt "obj").
      { destruct (discard_returns _ _ _
                    (export_obj_returns
                       (path_join H output_dir (base_name ++ "." ++ fmt)) true) s)
          as (s1 & t1 & [] & E & F).
        exists s1, t1. split; assumption. }
      destruct (String.eqb fmt "fbx").
      { destruct (discard_returns _ _ _
                    (export_fbx_returns
                       (path_join H output_dir (base_name ++ "." ++ fmt))
                       true true) s)
          as (s1 & t1 & [] & E & F).
        exists s1, t1. split; assumption. }
      assert (Hgl : forall Egl : String.eqb fmt "gltf" || String.eqb fmt "glb"
                                 = true,
                 exists s1 t1,
                   bind (export_gltf H
                           (path_join H output_dir (base_name ++ "." ++ fmt))
                           false) (fun _ => ret tt) s = (s1, t1, Ok tt) /\
                   footprint good []
                     [path_join H output_dir (base_name ++ "." ++ fmt)] t1).
      { intros Egl.
        destruct (discard_returns _ _ _
                    (export_gltf_returns
                       (path_join H output_dir (base_name ++ "." ++ fmt))
                       false (Hg Egl)) s)
          as (s1 & t1 & [] & E & F).
        exists s1, t1. split; assumption. }
      destruct (String.eqb fmt "gltf"); [exact (Hgl eq_refl)|].
      destruct (String.eqb fmt "glb"); [exact (Hgl eq_refl)|].
      cbn [orb]. clear Hgl.
      destruct (String.eqb fmt "dae").
      { destruct (discard_returns _ _ _
                    (export_dae_returns
                       (path_join H output_dir (base_name ++ "." ++ fmt))) s)
          as (s1 & t1 & [] & E & F).
        exists s1, t1. split; assumption. }
      exists s, []. split; [reflexivity|apply footprint_nil]. }
    destruct Hone as (s1 & t1 & E1 & F1).
    destruct (IH (fun f Hin => Hgood f (or_intror Hin)) s1)
      as (s2 & t2 & [] & E2 & F2).
    exists s2, (t1 ++ t2)%list, tt. cbn [for_each].
    rewrite (bind_returns _ _ _ _ _ _ E1). cbv beta. rewrite E2.
    split; [reflexivity|].
    pose proof (footprint_app _ _ _ _ _ _ F1 F2) as F.
    cbn [filter map app] in *.
    destruct (known_format fmt); exact F.
Qed.

Lemma print_stats_run (s : state H) :
  print_stats H s
  = (s, [Stdout (stats_json (get_mesh_stats (scene_objects H s)))], Ok tt).
Proof. reflexivity. Qed.


Lemma footprint_then_stats (X : list call) (Y : list string)
    (t : list output) (v : json) :
  footprint good X Y t ->
  stdout (t ++ [Stdout v]) = [v] /\
  imports (t ++ [Stdout v]) = X /\
  written (t ++ [Stdout v]) = Y /\
  Forall good (gltf_exports (t ++ [Stdout v])).
Proof.
  intros (A & B & C & D).
  rewrite stdout_app, imports_app, written_app, gltf_exports_app, A, B, C.
  cbn. rewrite !app_nil_r. repeat split. exact D.
Qed.

(** [import_export], once the scene is set up: what the run leaves. *)
Lemma main_import_export (argv : list string) (s s0 : state H)
    (t0 : list output) (input_file output_dir : string) (rest : list string) :
  (2 <= length argv)%nat ->
  script_args argv = "import_export" :: input_file :: output_dir :: rest ->
  _setup_scene H s = (s0, t0, Ok tt) ->
  let formats :=
    match rest with a3 :: _ => split "," a3 | [] => ["obj"; "fbx"] end in
  let path := fun fmt =>
    path_join H output_dir (stem H input_file ++ "." ++ fmt) in
  (forall fmt, In fmt formats ->
     String.eqb fmt "gltf" || String.eqb fmt "glb" = true ->
     good (path fmt,
           if endswith ".glb" (path fmt) then "GLB" else "GLTF_SEPARATE")) ->
  exists s' t,
    main H argv s = (s', t, Ok tt) /\
    stdout t = [stats_json (get_mesh_stats (scene_objects H s'))] /\
    imports t = import_for input_file /\
    written t = map path (filter known_format formats) /\
    Forall good (gltf_exports t).
Proof.
  intros Hlen Hargs Hsetup formats path Hgood.
  destruct (import_step_returns input_file s0) as (s1 & t1 & [] & E1 & F1).
  destruct (cleanup_mesh_returns true (1 # 10000) s1)
    as (s2 & t2 & b2 & E2 & F2).
  destruct (export_loop_returns output_dir (stem H input_file) formats Hgood s2)
    as (s3 & t3 & [] & E3 & F3).
  exists s3,
    (t0 ++ t1 ++ t2 ++ t3
        ++ [Stdout (stats_json (get_mesh_stats (scene_objects H s3)))])%list.
  split.
  - unfold main. rewrite (proj2 (Nat.ltb_ge _ _) Hlen). cbv zeta.
    rewrite Hargs. unfold item at 1. cbn [nth_error]. rewrite bind_ret_l.
    rewrite (bind_returns _ _ _ _ _ _ Hsetup).
    change (String.eqb "import_export" "import_export") with true. cbv iota.
    unfold item at 1. cbn [nth_error]. rewrite bind_ret_l.
    unfold item at 1. cbn [nth_error]. rewrite bind_ret_l.
    assert (Hformats :
              (if (3 <? length ("import_export" :: input_file :: output_dir
                                  :: rest))%nat
               then bind (item ("import_export" :: input_file :: output_dir
                                  :: rest) 3)
                      (fun a3 => ret (split "," a3))
               else ret ["obj"; "fbx"]) s0
              = (s0, [], Ok formats)).
    { subst formats. destruct rest as [|a3 rest']; reflexivity. }
    rewrite (bind_returns _ _ _ _ _ _ Hformats).
    rewrite (bind_returns _ _ _ _ _ _ E1).
    rewrite (bind_returns _ _ _ _ _ _ E2).
    fold path. rewrite (bind_returns _ _ _ _ _ _ E3).
    rewrite print_stats_run. reflexivity.
  - rewrite !app_assoc. apply footprint_then_stats.
    rewrite <- !app_assoc.
    pose proof (setup_footprint _ _ _ Hsetup) as F0.
    pose proof (footprint_app _ _ _ _ _ _ F0
                  (footprint_app _ _ _ _ _ _ F1
                     (footprint_app _ _ _ _ _ _ F2 F3))) as F.
    cbn [app] in F. rewrite ?app_nil_r in F. exact F.
Qed.


(** The export [cleanup] ends with, by the ending of the output name. *)
Lemma export_step_returns (output_file : string) :
  returns
    (if endswith ".obj" output_file then
       bind (export_obj H output_file true) (fun _ => ret tt)
     else if endswith ".fbx" output_file then
       bind (export_fbx H output_file true true) (fun _ => ret tt)
     else ret tt)
    (footprint good []
       (if endswith ".obj" output_file || endswith ".fbx" output_file
        then [output_file] else [])).
Proof.
  destruct (endswith ".obj" output_file); cbn [orb].
  - apply discard_returns, export_obj_returns.
  - destruct (endswith ".fbx" output_file).
    + apply discard_returns, export_fbx_returns.
    + intros s. exists s, [], tt. split; [reflexivity|apply footprint_nil].
Qed.

(** [cleanup], once the scene is set up. *)
Lemma main_cleanup (argv : list string) (s s0 : state H) (t0 : list output)
    (input_file output_file : string) (rest : list string) :
  (2 <= length argv)%nat ->
  script_args argv = "cleanup" :: input_file :: output_file :: rest ->
  _setup_scene H s = (s0, t0, Ok tt) ->
  exists s' t,
    main H argv s = (s', t, Ok tt) /\
    stdout t = [stats_json (get_mesh_stats (scene_objects H s'))] /\
    imports t = import_for input_file /\
    written t
    = (if endswith ".obj" output_file || endswith ".fbx" output_file
       then [output_file] else []) /\
    Forall good (gltf_exports t).
Proof.
  intros Hlen Hargs Hsetup.
  destruct (import_step_returns input_file s0) as (s1 & t1 & [] & E1 & F1).
  destruct (cleanup_mesh_returns true (1 # 10000) s1)
    as (s2 & t2 & b2 & E2 & F2).
  destruct (unwrap_uvs_returns "smart" s2) as (s3 & t3 & b3 & E3 & F3).
  destruct (export_step_returns output_file s3) as (s4 & t4 & [] & E4 & F4).
  exists s4,
    (t0 ++ t1 ++ t2 ++ t3 ++ t4
        ++ [Stdout (stats_json (get_mesh_stats (scene_objects H s4)))])%list.
  split.
  - unfold main. rewrite (proj2 (Nat.ltb_ge _ _) Hlen). cbv zeta.
    rewrite Hargs. unfold item at 1. cbn [nth_error]. rewrite bind_ret_l.
    rewrite (bind_returns _ _ _ _ _ _ Hsetup).
    change (String.eqb "cleanup" "import_export") with false.
    change (String.eqb "cleanup" "cleanup") with true. cbv iota.
    unfold item at 1. cbn [nth_error]. rewrite bind_ret_l.
    unfold item at 1. cbn [nth_error]. rewrite bind_ret_l.
    rewrite (bind_returns _ _ _ _ _ _ E1).
    rewrite (bind_returns _ _ _ _ _ _ E2).
    rewrite (bind_returns _ _ _ _ _ _ E3).
    rewrite (bind_returns _ _ _ _ _ _ E4).
    rewrite print_stats_run. reflexivity.
  - rewrite !app_assoc. apply footprint_then_stats.
    rewrite <- !app_assoc.
    pose proof (setup_footprint _ _ _ Hsetup) as F0.
    pose proof (footprint_app _ _ _ _ _ _ F0
                  (footprint_app _ _ _ _ _ _ F1
                     (footprint_app _ _ _ _ _ _ F2
                        (footprint_app _ _ _ _ _ _ F3 F4)))) as F.
    cbn [app] in F. rewrite ?app_nil_r in F. exact F.
Qed.

(** [stats], once the scene is set up. *)
Lemma main_stats (argv : list string) (s s0 : state H) (t0 : list output)
    (input_file : string) (rest : list string) :
  (2 <= length argv)%nat ->
  script_args argv = "stats" :: input_file :: rest ->
  _setup_scene H s = (s0, t0, Ok tt) ->
  exists s' t,
    main H argv s = (s', t, Ok tt) /\
    stdout t = [stats_json (get_mesh_stats (scene_objects H s'))] /\
    imports t = import_for input_file /\
    written t = [] /\
    Forall good (gltf_exports t).
Proof.
  intros Hlen Hargs Hsetup.
  destruct (import_step_returns input_file s0) as (s1 & t1 & [] & E1 & F1).
  exists s1,
    (t0 ++ t1
        ++ [Stdout (stats_json (get_mesh_stats (scene_objects H s1)))])%list.
  split.
  - unfold main. rewrite (proj2 (Nat.ltb_ge _ _) Hlen). cbv zeta.
    rewrite Hargs. unfold item at 1. cbn [nth_error]. rewrite bind_ret_l.
    rewrite (bind_returns _ _ _ _ _ _ Hsetup).
    change (String.eqb "stats" "import_export") with false.
    change (String.eqb "stats" "cleanup") with false.
    change (String.eqb "stats" "stats") with true. cbv iota.
    unfold item at 1. cbn [nth_error]. rewrite bind_ret_l.
    rewrite (bind_returns _ _ _ _ _ _ E1).
    rewrite print_stats_run. reflexivity.
  - rewrite !app_assoc. apply footprint_then_stats.
    pose proof (setup_footprint _ _ _ Hsetup) as F0.
    pose proof (footprint_app _ _ _ _ _ _ F0 F1) as F.
    cbn [app] in F. rewrite ?app_nil_r in F. exact F.
Qed.

(** A command the script does not know, once the scene is set up. *)
Lemma main_unknown (argv : list string) (s s0 : state H) (t0 : list output)
    (command : string) (rest : list string) :
  (2 <= length argv)%nat ->
  script_args argv = command :: rest ->
  ~ In command ["import_export"; "cleanup"; "stats"] ->
  _setup_scene H s = (s0, t0, Ok tt) ->
  main H argv s
  = (s0, (t0 ++ [Stderr ("Unknown command: " ++ command)])%list, Exit 1).
Proof.
  intros Hlen Hargs Hnot Hsetup.
  unfold main. rewrite (proj2 (Nat.ltb_ge _ _) Hlen). cbv zeta.
  rewrite Hargs. unfold item at 1. cbn [nth_error]. rewrite bind_ret_l.
  rewrite (bind_returns _ _ _ _ _ _ Hsetup).
  repeat match goal with
         | |- context [String.eqb command ?c] =>
             let E := fresh "E" in
             destruct (String.eqb_spec command c) as [E|E];
             [exfalso; apply Hnot; rewrite E; simpl; tauto|]
         end.
  reflexivity.
Qed.

(** A known command with too few arguments, once the scene is set up: the
    first missing argument raises [IndexError]. *)
Lemma main_too_few (argv : list string) (s s0 : state H) (t0 : list output)
    (command : string) (rest : list string) :
  (2 <= length argv)%nat ->
  script_args argv = command :: rest ->
  In command ["import_export"; "cleanup"; "stats"] ->
  (length (command :: rest) < arity command)%nat ->
  _setup_scene H s = (s0, t0, Ok tt) ->
  main H argv s = (s0, t0, Raised "list index out of range").
Proof.
  intros Hlen Hargs Hcmd Hfew Hsetup.
  unfold main. rewrite (proj2 (Nat.ltb_ge _ _) Hlen). cbv zeta.
  rewrite Hargs. unfold item at 1. cbn [nth_error]. rewrite bind_ret_l.
  rewrite (bind_returns _ _ _ _ _ _ Hsetup).
  cbn [In] in Hcmd. decompose [or] Hcmd; clear Hcmd; try contradiction;
    subst command; cbn in Hfew;
    cbn [String.eqb Ascii.eqb Bool.eqb];
    (destruct rest as [|a1 rest]; [cbn; rewrite app_nil_r; reflexivity|]);
    try (destruct rest as [|a2 rest]; [cbn; rewrite app_nil_r; reflexivity|]);
    cbn in Hfew; lia.
Qed.

End Runs.

(** The three commands at once. *)
Lemma main_known (H : Host) (argv : list string) (s s0 : state H)
    (t0 : list output) (command input_file : string) (rest : list string) :
  (2 <= length argv)%nat ->
  script_args argv = command :: input_file :: rest ->
  In command ["import_export"; "cleanup"; "stats"] ->
  (arity command <= length (command :: input_file :: rest))%nat ->
  _setup_scene H s = (s0, t0, Ok tt) ->
  exists s' t,
    main H argv s = (s', t, Ok tt) /\
    stdout t = [stats_json (get_mesh_stats (scene_objects H s'))] /\
    imports t = import_for input_file.
Proof.
  intros Hlen Hargs Hcmd Harity Hsetup. cbn [In] in Hcmd.
  decompose [or] Hcmd; clear Hcmd; try contradiction; subst command.
  - destruct rest as [|output_dir rest]; [cbn in Harity; lia|].
    destruct (main_import_export H (fun _ => True) argv s s0 t0 input_file
                output_dir rest Hlen Hargs Hsetup (fun _ _ _ => I))
      as (s' & t & E & A & B & _).
    exists s', t. repeat split; assumption.
  - destruct rest as [|output_file rest]; [cbn in Harity; lia|].
    destruct (main_cleanup H (fun _ => True) argv s s0 t0 input_file
                output_file rest Hlen Hargs Hsetup)
      as (s' & t & E & A & B & _).
    exists s', t. repeat split; assumption.
  - destruct (main_stats H (fun _ => True) argv s s0 t0 input_file rest
                Hlen Hargs Hsetup)
      as (s' & t & E & A & B & _).
    exists s', t. repeat split; assumption.
Qed.

(** X13.  Once the scene is set up, [import_export], [cleanup] and [stats] with
    enough arguments end normally and print exactly one object, the
    statistics of the scene as it then is, whatever the import, clean-up
    and export operators do: their failures go to standard error only. *)
Theorem script_reports_stats_whatever_fails (H : Host) (argv : list string)
    (s s0 : state H) (t0 : list output) (command input_file : string)
    (rest : list string) :
  (2 <= length argv)%nat ->
  script_args argv = command :: input_file :: rest ->
  In command ["import_export"; "cleanup"; "stats"] ->
  (arity command <= length (command :: input_file :: rest))%nat ->
  _setup_scene H s = (s0, t0, Ok tt) ->
  exists s' t,
    main H argv s = (s', t, Ok tt) /\
    stdout t = [stats_json (get_mesh_stats (scene_objects H s'))].
Proof.
  intros Hlen Hargs Hcmd Harity Hsetup.
  destruct (main_known H argv s s0 t0 command input_file rest
              Hlen Hargs Hcmd Harity Hsetup) as (s' & t & E & A & _).
  exists s', t. split; assumption.
Qed.

Lemma script_reports_stats_whatever_fails_witness :
  let H := mock_host failing_io in
  let argv := ["blender"; "--background"; "--python"; "automation.py"; "--";
               "cleanup"; "in.obj"; "out.fbx"] in
  exists s' t,
    main H argv [quad] = (s', t, Ok tt) /\
    stdout t = [stats_json (get_mesh_stats (scene_objects H s'))] /\
    stderr t = ["Error importing OBJ: file not found";
                "Error exporting FBX: disk full"] /\
    stdout t = [stats_json no_stats].
Proof.
  intros H argv.
  destruct (script_reports_stats_whatever_fails H argv [quad] [] 
              [Called (object_select_all "SELECT"); Called object_delete;
               Called (set_unit_system "METRIC");
               Called (set_scale_length (1 # 1))]
              "cleanup" "in.obj" ["out.fbx"])
    as (s' & t & E & A).
  - subst argv; simpl; lia.
  - reflexivity.
  - simpl; tauto.
  - vm_compute; lia.
  - reflexivity.
  - exists s', t. split; [exact E|]. split; [exact A|].
    vm_compute in E. injection E as <- <-. split; reflexivity.
Defined.

(** X14.  The file is imported by the ending of its name: [.obj] by the OBJ
    importer, [.fbx] by the FBX importer, and with any other ending (the
    test is on the exact lower-case ending) no import is attempted at all;
    the command goes on either way. *)
Theorem script_imports_by_extension (H : Host) (argv : list string)
    (s s0 : state H) (t0 : list output) (command input_file : string)
    (rest : list string) :
  (2 <= length argv)%nat ->
  script_args argv = command :: input_file :: rest ->
  In command ["import_export"; "cleanup"; "stats"] ->
  (arity command <= length (command :: input_file :: rest))%nat ->
  _setup_scene H s = (s0, t0, Ok tt) ->
  exists s' t,
    main H argv s = (s', t, Ok tt) /\
    imports t
    = (if endswith ".obj" input_file then [import_scene_obj input_file]
       else if endswith ".fbx" input_file then [import_scene_fbx input_file]
       else []).
Proof.
  intros Hlen Hargs Hcmd Harity Hsetup.
  destruct (main_known H argv s s0 t0 command input_file rest
              Hlen Hargs Hcmd Harity Hsetup) as (s' & t & E & _ & B).
  exists s', t. split; assumption.
Qed.

Lemma script_imports_by_extension_witness :
  let H := mock_host (fun _ => None) in
  let argv := ["blender"; "--background"; "--python"; "automation.py"; "--";
               "stats"; "MODEL.OBJ"] in
  exists s' t,
    main H argv [quad] = (s', t, Ok tt) /\ imports t = [] /\
    stdout t = [stats_json no_stats].
Proof.
  intros H argv.
  destruct (script_imports_by_extension H argv [quad] []
              [Called (object_select_all "SELECT"); Called object_delete;
               Called (set_unit_system "METRIC");
               Called (set_scale_length (1 # 1))]
              "stats" "MODEL.OBJ" [])
    as (s' & t & E & A).
  - subst argv; simpl; lia.
  - reflexivity.
  - simpl; tauto.
  - vm_compute; lia.
  - reflexivity.
  - exists s', t. split; [exact E|]. split; [exact A|].
    vm_compute in E. injection E as <- <-. reflexivity.
Defined.


(** X15.  What [import_export] sets out to write: for each requested format that
    has an exporter (obj, fbx, gltf, glb, dae), in the order requested, the
    file named after the input in the output directory; formats without an
    exporter are passed over in silence.  Without a formats argument the
    formats are obj and fbx. *)
Theorem import_export_writes_known_formats (H : Host) (argv : list string)
    (s s0 : state H) (t0 : list output) (input_file output_dir : string)
    (rest : list string) :
  (2 <= length argv)%nat ->
  script_args argv = "import_export" :: input_file :: output_dir :: rest ->
  _setup_scene H s = (s0, t0, Ok tt) ->
  exists s' t,
    main H argv s = (s', t, Ok tt) /\
    written t
    = map (fun fmt => path_join H output_dir (stem H input_file ++ "." ++ fmt))
          (filter known_format
             match rest with
             | a3 :: _ => split "," a3
             | [] => ["obj"; "fbx"]
             end).
Proof.
  intros Hlen Hargs Hsetup.
  destruct (main_import_export H (fun _ => True) argv s s0 t0 input_file
              output_dir rest Hlen Hargs Hsetup (fun _ _ _ => I))
    as (s' & t & E & _ & _ & C & _).
  exists s', t. split; assumption.
Qed.

Lemma import_export_writes_known_formats_witness :
  let H := mock_host (fun _ => None) in
  let argv := ["blender"; "--background"; "--python"; "automation.py"; "--";
               "import_export"; "chair.fbx"; "/out"; "glb,stl,,obj"] in
  exists s' t,
    main H argv [] = (s', t, Ok tt) /\
    written t = ["/out/chair.glb"; "/out/chair.obj"].
Proof.
  intros H argv.
  exact (import_export_writes_known_formats H argv [] []
           [Called (object_select_all "SELECT"); Called object_delete;
            Called (set_unit_system "METRIC");
            Called (set_scale_length (1 # 1))]
           "chair.fbx" "/out" ["glb,stl,,obj"]
           ltac:(subst argv; simpl; lia) eq_refl eq_refl).
Defined.

(** X16.  [cleanup] writes its output only when the output name ends in [.obj] or
    [.fbx]; with any other ending nothing is written, and the command still
    ends normally with its statistics. *)
Theorem cleanup_writes_only_obj_or_fbx (H : Host) (argv : list string)
    (s s0 : state H) (t0 : list output) (input_file output_file : string)
    (rest : list string) :
  (2 <= length argv)%nat ->
  script_args argv = "cleanup" :: input_file :: output_file :: rest ->
  _setup_scene H s = (s0, t0, Ok tt) ->
  exists s' t,
    main H argv s = (s', t, Ok tt) /\
    stdout t = [stats_json (get_mesh_stats (scene_objects H s'))] /\
    written t
    = (if endswith ".obj" output_file || endswith ".fbx" output_file
       then [output_file] else []).
Proof.
  intros Hlen Hargs Hsetup.
  destruct (main_cleanup H (fun _ => True) argv s s0 t0 input_file
              output_file rest Hlen Hargs Hsetup)
    as (s' & t & E & A & _ & C & _).
  exists s', t. repeat split; assumption.
Qed.

Lemma cleanup_writes_only_obj_or_fbx_witness :
  let H := mock_host (fun _ => None) in
  let argv := ["blender"; "--background"; "--python"; "automation.py"; "--";
               "cleanup"; "chair.obj"; "chair.glb"] in
  exists s' t,
    main H argv [] = (s', t, Ok tt) /\
    stdout t = [stats_json (get_mesh_stats (scene_objects H s'))] /\
    written t = [].
Proof.
  intros H argv.
  exact (cleanup_writes_only_obj_or_fbx H argv [] []
           [Called (object_select_all "SELECT"); Called object_delete;
            Called (set_unit_system "METRIC");
            Called (set_scale_length (1 # 1))]
           "chair.obj" "chair.glb" []
           ltac:(subst argv; simpl; lia) eq_refl eq_refl).
Defined.

(** *** Endings *)

Lemma string_app_assoc (a b c : string) : (a ++ b) ++ c = a ++ (b ++ c).
Proof. induction a as [|x a IH]; cbn; [reflexivity|rewrite IH; reflexivity]. Qed.

Lemma endswith_app (pre suffix : string) :
  endswith suffix (pre ++ suffix) = true.
Proof.
  induction pre as [|c pre IH]; cbn [append].
  - destruct suffix; cbn; rewrite ?Ascii.eqb_refl, ?String.eqb_refl;
      reflexivity.
  - cbn [endswith]. rewrite IH.
    destruct (String.eqb suffix (String c (pre ++ suffix))); reflexivity.
Qed.

Lemma last_char_app (a b : string) (c : ascii) :
  last_char b = Some c -> last_char (a ++ b) = Some c.
Proof.
  intros Hb. induction a as [|x a IH]; [exact Hb|].
  cbn [append]. revert IH. generalize (a ++ b). intros s IH.
  destruct s; [discriminate|exact IH].
Qed.

Lemma endswith_last_char (suffix s : string) (c : ascii) :
  endswith suffix s = true -> last_char suffix = Some c ->
  last_char s = Some c.
Proof.
  intros Hends Hlast. induction s as [|x s IH].
  - cbn in Hends. destruct suffix; [discriminate|discriminate].
  - cbn [endswith] in Hends.
    destruct (String.eqb_spec suffix (String x s)) as [<-|_]; [exact Hlast|].
    specialize (IH Hends). cbn [last_char].
    destruct s; [discriminate|exact IH].
Qed.

(** X17.  On a platform whose [os.path.join(a, b)] ends with [b], the glTF
    exports of [import_export] are binary for the format [glb] and separate
    for the format [gltf]: the test on the file name in [export_gltf] agrees
    with the format that was asked for. *)
Theorem glb_is_exported_as_binary (H : Host) (argv : list string)
    (s s0 : state H) (t0 : list output) (input_file output_dir : string)
    (rest : list string) :
  (forall a b, exists pre, path_join H a b = pre ++ b) ->
  (2 <= length argv)%nat ->
  script_args argv = "import_export" :: input_file :: output_dir :: rest ->
  _setup_scene H s = (s0, t0, Ok tt) ->
  exists s' t,
    main H argv s = (s', t, Ok tt) /\
    Forall
      (fun export : string * string =>
         (fst export
          = path_join H output_dir (stem H input_file ++ ".glb") /\
          snd export = "GLB") \/
         (fst export
          = path_join H output_dir (stem H input_file ++ ".gltf") /\
          snd export = "GLTF_SEPARATE"))
      (gltf_exports t).
Proof.
  intros Hjoin Hlen Hargs Hsetup.
  destruct (main_import_export H
              (fun export : string * string =>
                 (fst export
                  = path_join H output_dir (stem H input_file ++ ".glb") /\
                  snd export = "GLB") \/
                 (fst export
                  = path_join H output_dir (stem H input_file ++ ".gltf") /\
                  snd export = "GLTF_SEPARATE"))
              argv s s0 t0 input_file output_dir rest Hlen Hargs Hsetup)
    as (s' & t & E & _ & _ & _ & D).
  - intros fmt _ Hfmt. cbn [fst snd].
    destruct (String.eqb_spec fmt "gltf") as [Hg|_].
    + subst fmt. right. split; [reflexivity|].
      destruct (endswith ".glb"
                  (path_join H output_dir (stem H input_file ++ "." ++ "gltf")))
        eqn:Hends; [|reflexivity].
      exfalso.
      destruct (Hjoin output_dir (stem H input_file ++ "." ++ "gltf"))
        as [pre Hpre].
      pose proof (endswith_last_char _ _ "b" Hends eq_refl) as Hb.
      rewrite Hpre in Hb.
      rewrite (last_char_app pre _ "f") in Hb; [discriminate|].
      apply last_char_app. reflexivity.
    + cbn [orb] in Hfmt. apply String.eqb_eq in Hfmt. subst fmt.
      left. split; [reflexivity|].
      destruct (Hjoin output_dir (stem H input_file ++ "." ++ "glb"))
        as [pre Hpre].
      rewrite Hpre.
      change (stem H input_file ++ "." ++ "glb")
        with (stem H input_file ++ ".glb").
      rewrite <- string_app_assoc. rewrite endswith_app. reflexivity.
  - exists s', t. split; assumption.
Qed.

Lemma posix_join_ends_with_second (a b : string) :
  exists pre, posix_join a b = pre ++ b.
Proof.
  unfold posix_join. destruct (prefix "/" b); [exists ""; reflexivity|].
  destruct (String.eqb a "" || endswith "/" a); [exists a; reflexivity|].
  exists (a ++ "/"). rewrite string_app_assoc. reflexivity.
Qed.

Lemma glb_is_exported_as_binary_witness :
  let H := mock_host (fun _ => None) in
  let argv := ["blender"; "--background"; "--python"; "automation.py"; "--";
               "import_export"; "chair.obj"; "out"; "glb,gltf"] in
  exists s' t,
    main H argv [] = (s', t, Ok tt) /\
    gltf_exports t
    = [("out/chair.glb", "GLB"); ("out/chair.gltf", "GLTF_SEPARATE")].
Proof.
  intros H argv.
  destruct (glb_is_exported_as_binary H argv [] []
              [Called (object_select_all "SELECT"); Called object_delete;
               Called (set_unit_system "METRIC");
               Called (set_scale_length (1 # 1))]
              "chair.obj" "out" ["glb,gltf"])
    as (s' & t & E & _).
  - exact posix_join_ends_with_second.
  - subst argv; simpl; lia.
  - reflexivity.
  - reflexivity.
  - exists s', t. split; [exact E|].
    vm_compute in E. injection E as <- <-. reflexivity.
Defined.


(** *** Commands the script turns down *)

Lemma setup_trace (H : Host) (s s0 : state H) (t0 : list output) :
  _setup_scene H s = (s0, t0, Ok tt) ->
  t0 = [Called (object_select_all "SELECT"); Called object_delete;
        Called (set_unit_system "METRIC"); Called (set_scale_length (1 # 1))].
Proof.
  unfold _setup_scene, bind, bpy.
  repeat match goal with
         | |- context [exec ?h ?c ?x] => destruct (exec h c x) as [? [?|]]
         end;
    intros E; try discriminate; injection E as _ <-; reflexivity.
Qed.

(** X18.  A command the script does not know is turned down only after the scene
    has been emptied and set up: the four set-up calls are made, then
    "Unknown command" goes to standard error and the script exits with
    status 1, with nothing on standard output. *)
Theorem script_unknown_command_exits_after_setup (H : Host)
    (argv : list string) (s s0 : state H) (t0 : list output)
    (command : string) (rest : list string) :
  (2 <= length argv)%nat ->
  script_args argv = command :: rest ->
  ~ In command ["import_export"; "cleanup"; "stats"] ->
  _setup_scene H s = (s0, t0, Ok tt) ->
  main H argv s
  = (s0,
     [Called (object_select_all "SELECT"); Called object_delete;
      Called (set_unit_system "METRIC"); Called (set_scale_length (1 # 1));
      Stderr ("Unknown command: " ++ command)],
     Exit 1).
Proof.
  intros Hlen Hargs Hnot Hsetup.
  rewrite (main_unknown H (fun _ => True) argv s s0 t0 command rest
             Hlen Hargs Hnot Hsetup).
  rewrite (setup_trace H s s0 t0 Hsetup). reflexivity.
Qed.

Lemma script_unknown_command_exits_after_setup_witness :
  main (mock_host (fun _ => None))
       ["blender"; "--background"; "--python"; "automation.py"; "--";
        "optimize"; "chair.obj"; "out"]
       [quad]
  = ([],
     [Called (object_select_all "SELECT"); Called object_delete;
      Called (set_unit_system "METRIC"); Called (set_scale_length (1 # 1));
      Stderr "Unknown command: optimize"],
     Exit 1).
Proof.
  apply (script_unknown_command_exits_after_setup
           (mock_host (fun _ => None))
           ["blender"; "--background"; "--python"; "automation.py"; "--";
            "optimize"; "chair.obj"; "out"]
           [quad] []
           [Called (object_select_all "SELECT"); Called object_delete;
            Called (set_unit_system "METRIC");
            Called (set_scale_length (1 # 1))]
           "optimize" ["chair.obj"; "out"]).
  - simpl; lia.
  - reflexivity.
  - simpl. intros Hin. decompose [or] Hin; try discriminate; contradiction.
  - reflexivity.
Defined.

(** X19.  A known command with fewer arguments than it reads dies of an uncaught
    [IndexError] after the scene has been set up, and prints nothing. *)
Theorem script_missing_argument_raises (H : Host) (argv : list string)
    (s s0 : state H) (t0 : list output) (command : string)
    (rest : list string) :
  (2 <= length argv)%nat ->
  script_args argv = command :: rest ->
  In command ["import_export"; "cleanup"; "stats"] ->
  (length (command :: rest) < arity command)%nat ->
  _setup_scene H s = (s0, t0, Ok tt) ->
  main H argv s = (s0, t0, Raised "list index out of range") /\
  stdout t0 = [] /\ stderr t0 = [].
Proof.
  intros Hlen Hargs Hcmd Hfew Hsetup.
  split; [exact (main_too_few H argv s s0 t0 command rest
                   Hlen Hargs Hcmd Hfew Hsetup)|].
  rewrite (setup_trace H s s0 t0 Hsetup). split; reflexivity.
Qed.

Lemma script_missing_argument_raises_witness :
  exists t0,
    main (mock_host (fun _ => None))
         ["blender"; "--background"; "--python"; "automation.py"; "--";
          "cleanup"; "chair.obj"]
         [quad]
    = ([], t0, Raised "list index out of range") /\
    stdout t0 = [] /\ stderr t0 = [].
Proof.
  eexists.
  apply (script_missing_argument_raises
           (mock_host (fun _ => None))
           ["blender"; "--background"; "--python"; "automation.py"; "--";
            "cleanup"; "chair.obj"]
           [quad] [] _ "cleanup" ["chair.obj"]).
  - simpl; lia.
  - reflexivity.
  - simpl; tauto.
  - vm_compute; lia.
  - reflexivity.
Defined.

(** X20.  Without a command the script leaves Blender alone.  With fewer than
    two elements in [sys.argv] it prints the usage line on standard error
    and exits with status 1; with two or more and nothing after the
    separator it dies of an uncaught [IndexError] without a line of
    output.  In both cases no call into Blender is made and the scene is
    as it was. *)
Theorem script_without_command_leaves_blender_alone (H : Host)
    (argv : list string) (s : state H) :
  ((length argv < 2)%nat ->
   main H argv s = (s, [Stderr usage], Exit 1)) /\
  ((2 <= length argv)%nat ->
   script_args argv = [] ->
   main H argv s = (s, [], Raised "list index out of range")).
Proof.
  unfold main. split.
  - intros Hlt. rewrite (proj2 (Nat.ltb_lt _ _) Hlt). reflexivity.
  - intros Hge Hargs. rewrite (proj2 (Nat.ltb_ge _ _) Hge).
    cbv zeta. rewrite Hargs. reflexivity.
Qed.

Lemma script_without_command_leaves_blender_alone_witness :
  main (mock_host (fun _ => None)) ["automation.py"] [quad]
  = ([quad], [Stderr usage], Exit 1) /\
  main (mock_host (fun _ => None))
       ["blender"; "--background"; "--python"; "automation.py"; "--"] [quad]
  = ([quad], [], Raised "list index out of range").
Proof.
  split.
  - apply (proj1 (script_without_command_leaves_blender_alone
                    (mock_host (fun _ => None)) ["automation.py"] [quad])).
    simpl; lia.
  - apply (proj2 (script_without_command_leaves_blender_alone
                    (mock_host (fun _ => None))
                    ["blender"; "--background"; "--python"; "automation.py";
                     "--"] [quad])).
    + simpl; lia.
    + reflexivity.
Defined.

(** *** The arguments *)

(** What follows the first separator is what the script works on, whatever
    comes before it and even when the arguments hold a separator of their
    own. *)
Lemma script_args_after_separator (before args : list string) :
  ~ In "--" before ->
  script_args (before ++ "--" :: args) = args.
Proof.
  intros Hnot. unfold script_args.
  assert (Hin : list_in "--" (before ++ "--" :: args) = true).
  { unfold list_in. apply existsb_exists. exists "--".
    split; [apply in_or_app; right; left; reflexivity|reflexivity]. }
  rewrite Hin. clear Hin.
  induction before as [|x before IH]; [reflexivity|].
  cbn [app list_index].
  destruct (String.eqb_spec "--" x) as [E|_];
    [exfalso; apply Hnot; left; symmetry; exact E|].
  cbn [Nat.add skipn]. apply IH. intros Hin. apply Hnot. right. exact Hin.
Qed.

End AutomationFacts.

(** ** The router and the script together *)

Lemma search_finds_a_candidate (w : World) (paths : list string)
    (exe : string) :
  search w paths = Returns (Some exe) -> In exe paths.
Proof.
  induction paths as [|p rest IH]; simpl; [discriminate|].
  destruct (path_exists w p) as [[|]|msg].
  - intros [= ->]. left. reflexivity.
  - intros E. right. exact (IH E).
  - discriminate.
Qed.

Lemma resolve_is_a_candidate (w : World) (exe : string) :
  resolve w = Some exe -> In exe blender_paths.
Proof.
  intros E. exact (search_finds_a_candidate w _ exe (resolve_search w exe E)).
Qed.

Lemma command_line_round_trip (w : World) (exe script_name : string)
    (args : list string) :
  In exe blender_paths ->
  script_path w script_name <> "--" ->
  Automation.script_args (command_line w exe script_name args) = args.
Proof.
  intros Hexe Hscript. unfold command_line.
  change ([exe; "--background"; "--python"; script_path w script_name; "--"]
            ++ args)%list
    with ([exe; "--background"; "--python"; script_path w script_name]
            ++ "--" :: args)%list.
  apply AutomationFacts.script_args_after_separator.
  intros Hin. cbn [In] in Hin.
  destruct Hin as [E|[E|[E|[E|[]]]]]; try discriminate.
  - subst exe. unfold blender_paths in Hexe. cbn [In] in Hexe.
    decompose [or] Hexe; try discriminate; contradiction.
  - exact (Hscript E).
Qed.

(** X8.  The argument list the dispatcher is given is the argument list the
    script reads back from the command line, unless the script's own path is
    a bare separator: nothing is lost or added on the way into Blender, not
    even when an argument is itself ["--"]. *)
Theorem script_reads_the_dispatcher_arguments (w : World)
    (script_name : string) (args cmd : list string) :
  script_path w script_name <> "--" ->
  In cmd (spawned (trace (run_blender_script w script_name args))) ->
  Automation.script_args cmd = args.
Proof.
  intros Hscript Hin.
  rewrite (proj2 (dispatcher_trace w script_name args)) in Hin.
  destruct (resolve w) as [exe|] eqn:Hres; [|contradiction].
  destruct Hin as [<-|[]].
  apply command_line_round_trip; [|exact Hscript].
  exact (resolve_is_a_candidate w exe Hres).
Qed.

Lemma script_reads_the_dispatcher_arguments_witness :
  Automation.script_args
    ["/usr/bin/blender"; "--background"; "--python";
     "/srv/blender/automation.py"; "--"; "stats"; "--"; "model.obj"]
  = ["stats"; "--"; "model.obj"].
Proof.
  apply (script_reads_the_dispatcher_arguments
           (subprocess_mock 0 "" "") "automation.py"
           ["stats"; "--"; "model.obj"]).
  - discriminate.
  - left. reflexivity.
Defined.

(** X9.  Every command line the router starts is one the script accepts: once
    the scene is set up, the script does not stop at a missing argument or an
    unknown command, but ends normally with one statistics object on its
    standard output. *)
Theorem router_command_lines_are_accepted (w : World) (args : Namespace)
    (cmd : list string) (H : Automation.Host) (s s0 : Automation.state H)
    (t0 : list Automation.output) :
  script_path w "automation.py" <> "--" ->
  In cmd (spawned (trace (main w args))) ->
  Automation._setup_scene H s = (s0, t0, Automation.Ok tt) ->
  Automation.script_args cmd = dispatch_args args /\
  exists s' t,
    Automation.main H cmd s = (s', t, Automation.Ok tt) /\
    Automation.stdout t
    = [Automation.stats_json
         (Automation.get_mesh_stats (Automation.scene_objects H s'))].
Proof.
  intros Hscript Hin Hsetup.
  destruct (main_spawned w args) as [Hnone|[Hcmd Hone]];
    [rewrite Hnone in Hin; contradiction|].
  rewrite Hone in Hin.
  rewrite (proj2 (dispatcher_trace w "automation.py" (dispatch_args args)))
    in Hin.
  destruct (resolve w) as [exe|] eqn:Hres; [|contradiction].
  destruct Hin as [<-|[]].
  pose proof (command_line_round_trip w exe "automation.py"
                (dispatch_args args) (resolve_is_a_candidate w exe Hres)
                Hscript) as Hround.
  unfold command_line in Hround. split; [exact Hround|].
  assert (Hshape : exists command input_file rest,
             dispatch_args args = command :: input_file :: rest /\
             In command ["import_export"; "cleanup"; "stats"] /\
             (Automation.arity command
              <= length (command :: input_file :: rest))%nat).
  { unfold dispatch_args. unfold script_commands in Hcmd. cbn [In] in Hcmd.
    decompose [or] Hcmd; try contradiction;
      match goal with E : _ = command args |- _ => rewrite <- E end;
      cbn [String.eqb Ascii.eqb Bool.eqb];
      do 3 eexists; (split; [reflexivity|]);
      (split; [simpl; tauto|vm_compute; lia]). }
  destruct Hshape as (command & input_file & rest & Hd & Hknown & Harity).
  rewrite Hd in Hround |- *.
  destruct (AutomationFacts.main_known H
              ([exe; "--background"; "--python";
                script_path w "automation.py"; "--"]
                 ++ command :: input_file :: rest)%list
              s s0 t0 command input_file rest)
    as (s' & t & E & A & _); try assumption.
  { cbn [app length]. lia. }
  exists s', t. split; assumption.
Qed.

Lemma router_command_lines_are_accepted_witness :
  let w := subprocess_mock 0 mesh_stats_stdout "" in
  let args := request "import_export" (Some "chair.fbx") (Some "out") None in
  let cmd := ["/usr/bin/blender"; "--background"; "--python";
              "/srv/blender/automation.py"; "--";
              "import_export"; "chair.fbx"; "out"; "obj,fbx"] in
  spawned (trace (main w args)) = [cmd] /\
  Automation.script_args cmd = ["import_export"; "chair.fbx"; "out"; "obj,fbx"]
  /\
  exists s' t,
    Automation.main (Automation.mock_host Automation.failing_io) cmd [] 
    = (s', t, Automation.Ok tt) /\
    Automation.stdout t
    = [Automation.stats_json
         (Automation.get_mesh_stats
            (Automation.scene_objects
               (Automation.mock_host Automation.failing_io) s'))].
Proof.
  intros w args cmd. split; [reflexivity|].
  apply (router_command_lines_are_accepted w args cmd
           (Automation.mock_host Automation.failing_io) [] []
           [Automation.Called (Automation.object_select_all "SELECT");
            Automation.Called Automation.object_delete;
            Automation.Called (Automation.set_unit_system "METRIC");
            Automation.Called (Automation.set_scale_length (1 # 1))]).
  - discriminate.
  - left. reflexivity.
  - reflexivity.
Defined.
